(** * kismatic-provision: the DigitalOcean provisioning command

    A shallow embedding of [provision/digitalocean/digitalocean.go]
    (package [digitalocean]) and the properties of its plan assembly,
    unique plan-file allocation and administrative password generation.

    Go code is embedded as functions in a small state monad over a
    [World] (environment variables, standard input, file system, random
    sources, trace of calls to the external collaborators).  A run either returns a value,
    stops on a run-time panic, or (for the two loops of the file) runs
    out of the fuel given to the model. *)

From Stdlib Require Import ZArith Lia Ascii.
From stdpp Require Import base gmap strings list fin_maps fin_sets pretty.

(** ** Go values *)

(** An [error] value.  [os.IsNotExist] looks at its kind, everything else
    only at the fact that it is not [nil]; [nil] is [None] in
    [option error]. *)
Inductive error : Type :=
| ErrNotExist (path : string)
| ErrPermission (path : string)
| ErrMsg (msg : string).

(** Run-time panics of the Go runtime met in this file. *)
Inductive Fault : Type :=
| IndexOutOfRange (index len : nat)
| NilDereference.

(** [plan.Node], with the fields this file reads. *)
Record Node : Type := mkNode {
  ID : string;
  PublicIPv4 : string;
  PrivateIPv4 : string;
  NodeSSHUser : string
}.

(** [plan.Plan], with the fields this file sets. *)
Record Plan : Type := mkPlan {
  AdminPassword : string;
  PlanEtcd : list Node;
  PlanMaster : list Node;
  PlanWorker : list Node;
  Ingress : list Node;
  PlanStorage : list Node;
  MasterNodeFQDN : string;
  MasterNodeShortName : string;
  SSHKeyFile : string;
  PlanSSHUser : string
}.

Record DOOpts : Type := mkDOOpts {
  Token : string;
  ClusterTag : string;
  EtcdNodeCount : Z;          (* uint16 *)
  MasterNodeCount : Z;        (* uint16 *)
  WorkerNodeCount : Z;        (* uint16 *)
  NoPlan : bool;
  InstanceType : string;
  WorkerType : string;
  Image : string;
  Region : string;
  Storage : bool;
  SSHUser : string;
  SshKeyName : string;
  SshPrivate : string;
  SshPublic : string;
  BootstrapNode : bool;
  RemoveKey : bool
}.

Definition set_Token (t : string) (o : DOOpts) : DOOpts :=
  mkDOOpts t (ClusterTag o) (EtcdNodeCount o) (MasterNodeCount o)
    (WorkerNodeCount o) (NoPlan o) (InstanceType o) (WorkerType o) (Image o)
    (Region o) (Storage o) (SSHUser o) (SshKeyName o) (SshPrivate o)
    (SshPublic o) (BootstrapNode o) (RemoveKey o).

Definition set_SshKeyName (n : string) (o : DOOpts) : DOOpts :=
  mkDOOpts (Token o) (ClusterTag o) (EtcdNodeCount o) (MasterNodeCount o)
    (WorkerNodeCount o) (NoPlan o) (InstanceType o) (WorkerType o) (Image o)
    (Region o) (Storage o) (SSHUser o) n (SshPrivate o)
    (SshPublic o) (BootstrapNode o) (RemoveKey o).

Definition set_SshPrivate (p : string) (o : DOOpts) : DOOpts :=
  mkDOOpts (Token o) (ClusterTag o) (EtcdNodeCount o) (MasterNodeCount o)
    (WorkerNodeCount o) (NoPlan o) (InstanceType o) (WorkerType o) (Image o)
    (Region o) (Storage o) (SSHUser o) (SshKeyName o) p
    (SshPublic o) (BootstrapNode o) (RemoveKey o).

Definition set_SshPublic (p : string) (o : DOOpts) : DOOpts :=
  mkDOOpts (Token o) (ClusterTag o) (EtcdNodeCount o) (MasterNodeCount o)
    (WorkerNodeCount o) (NoPlan o) (InstanceType o) (WorkerType o) (Image o)
    (Region o) (Storage o) (SSHUser o) (SshKeyName o) (SshPrivate o)
    p (BootstrapNode o) (RemoveKey o).

(** [NodeCount] and [ProvisionedNodes] are declared in a sibling file of
    the package; their fields are the ones this file names (with the
    package's own spelling [Boostrap]). *)
Record NodeCount : Type := mkNodeCount {
  CountEtcd : Z;
  CountWorker : Z;
  CountMaster : Z;
  CountBoostrap : Z
}.

Record ProvisionedNodes : Type := mkProvisionedNodes {
  Etcd : list Node;
  Master : list Node;
  Worker : list Node;
  Boostrap : list Node
}.

(** [garbler.PasswordStrengthRequirements], with the fields this file sets. *)
Record PasswordStrengthRequirements : Type := mkReqs {
  MinimumTotalLength : Z;
  Uppercase : Z;
  Digits : Z;
  Punctuation : Z
}.

(** An open [*os.File]: [Name] is the name it was created with. *)
Record File : Type := mkFile { Name : string }.

(** [os.FileInfo] of a successful [os.Stat]; its [Name()] is the base name
    of [InfoPath]. *)
Record FileInfo : Type := mkFileInfo { InfoPath : string }.

(** ** The world a run acts on *)

(** What the run does to the outside, in order.  [EvPrint] is a line on
    standard output, the operands of [fmt.Println] separated by spaces;
    [EvPrompt] is a text written there with no line end. *)
Inductive Event : Type :=
| EvPrint (operands : list string)
| EvPrompt (text : string)
| EvProvision (opts : DOOpts) (counts : NodeCount)
| EvWaitForSSH (nodes : ProvisionedNodes) (key : string)
| EvScp (src dst user host key : string).

(** The file system is a finite map from path to contents: [os.Stat]
    succeeds on the paths of the map and fails with a not-exist error on
    every other path (for the other failures of [os.Stat] see
    [makeUniqueFile_with]).  [w_stdin] is
    what standard input holds, of which a run reads one line.  [w_denied]
    are the paths on which [os.Create] fails.  [w_rand] and [w_garbler]
    count the draws taken from [math/rand] and the calls made to the
    password library. *)
Record World : Type := mkWorld {
  w_env : gmap string string;
  w_stdin : string;
  w_execdir : string * option error;
  w_files : gmap string string;
  w_denied : gset string;
  w_rand : nat;
  w_garbler : nat;
  w_trace : list Event
}.

Definition set_files (fs : gmap string string) (w : World) : World :=
  mkWorld (w_env w) (w_stdin w) (w_execdir w) fs (w_denied w)
    (w_rand w) (w_garbler w) (w_trace w).

Definition set_rand (n : nat) (w : World) : World :=
  mkWorld (w_env w) (w_stdin w) (w_execdir w) (w_files w) (w_denied w)
    n (w_garbler w) (w_trace w).

Definition set_garbler (n : nat) (w : World) : World :=
  mkWorld (w_env w) (w_stdin w) (w_execdir w) (w_files w) (w_denied w)
    (w_rand w) n (w_trace w).

Definition set_trace (t : list Event) (w : World) : World :=
  mkWorld (w_env w) (w_stdin w) (w_execdir w) (w_files w) (w_denied w)
    (w_rand w) (w_garbler w) t.

(** ** The monad of runs *)

Inductive Res (A : Type) : Type :=
| Ok (a : A)
| Panic (f : Fault)
| OutOfFuel.
Arguments Ok {A} a.
Arguments Panic {A} f.
Arguments OutOfFuel {A}.

Definition M (A : Type) : Type := World -> Res A * World.

Definition ret {A} (a : A) : M A := fun w => (Ok a, w).

Definition bind {A B} (m : M A) (k : A -> M B) : M B :=
  fun w =>
    match m w with
    | (Ok a, w') => k a w'
    | (Panic f, w') => (Panic f, w')
    | (OutOfFuel, w') => (OutOfFuel, w')
    end.

Definition panic {A} (f : Fault) : M A := fun w => (Panic f, w).
Definition out_of_fuel {A} : M A := fun w => (OutOfFuel, w).
Definition get : M World := fun w => (Ok w, w).
Definition modify (f : World -> World) : M unit := fun w => (Ok tt, f w).

Declare Scope go_scope.
Delimit Scope go_scope with go.
Notation "'let*' x ':=' m 'in' k" := (bind m (fun x => k))
  (at level 10, x pattern, m at level 100, k at level 200) : go_scope.
Notation "m ';;' k" := (bind m (fun _ => k))
  (at level 100, k at level 200, right associativity) : go_scope.
Local Open Scope go_scope.

(** ** Operating-system and library primitives *)

Definition emit (e : Event) : M unit :=
  modify (fun w => set_trace (w_trace w ++ [e]) w).

(** [fmt.Println], and [fmt.Print] of a text that ends in a line feed,
    which writes the line [fmt.Println] writes for the text without it. *)
Definition Println (operands : list string) : M unit := emit (EvPrint operands).

(** [fmt.Print] of a text that does not end in a line feed. *)
Definition Print (text : string) : M unit := emit (EvPrompt text).

Definition os_Getenv (key : string) : M string :=
  let* w := get in ret (default "" (w_env w !! key)).

(** [os.Stat]: the empty path never names a file. *)
Definition os_Stat (path : string) : M (option FileInfo * option error) :=
  let* w := get in
  if decide (path = "") then ret (None, Some (ErrNotExist path))
  else match w_files w !! path with
       | Some _ => ret (Some (mkFileInfo path), None)
       | None => ret (None, Some (ErrNotExist path))
       end.

Definition os_IsNotExist (err : option error) : bool :=
  match err with
  | Some (ErrNotExist _) => true
  | _ => false
  end.

(** [os.Create]: opens with O_RDWR|O_CREATE|O_TRUNC, so an existing file is
    truncated, not refused. *)
Definition os_Create (name : string) : M (option File * option error) :=
  let* w := get in
  if decide (name ∈ w_denied w) then ret (None, Some (ErrPermission name))
  else modify (set_files (<[name := ""]> (w_files w))) ;;
       ret (Some (mkFile name), None).

(** [int] is 64 bits wide: addition wraps around. *)
Definition int_wrap (z : Z) : Z := ((z + 2 ^ 63) mod 2 ^ 64 - 2 ^ 63)%Z.

(** [strconv.Itoa]: the decimal numeral, with a minus sign for negatives. *)
Definition strconv_Itoa (n : Z) : string := pretty n.

(** ** Unique plan file *)

(** The file name [makeUniqueFile] tries at [count]. *)
Definition candidate (count : Z) : string :=
  let filename := "kismatic-cluster" in
  let filename :=
    if (0 <? count)%Z then filename +:+ "-" +:+ strconv_Itoa count
    else filename in
  filename +:+ ".yaml".

(** [makeUniqueFile]; the recursion of the source is cut at [fuel] calls. *)
Fixpoint makeUniqueFile (fuel : nat) (count : Z) : M (option File * option error) :=
  match fuel with
  | O => out_of_fuel
  | S fuel' =>
      let filename := candidate count in
      let* (_, err) := os_Stat filename in
      if os_IsNotExist err then os_Create filename
      else makeUniqueFile fuel' (int_wrap (count + 1))
  end.

(** [makeUniqueFile] on a file system where [os.Stat] can fail in any way:
    [stat] is what [os.Stat] returns on a path.  The source asks only
    whether the error is a not-exist error, so a name whose stat fails in
    another way is passed over like the name of a file. *)
Fixpoint makeUniqueFile_with (stat : string -> option FileInfo * option error)
    (fuel : nat) (count : Z) : M (option File * option error) :=
  match fuel with
  | O => out_of_fuel
  | S fuel' =>
      let filename := candidate count in
      let (_, err) := stat filename in
      if os_IsNotExist err then os_Create filename
      else makeUniqueFile_with stat fuel' (int_wrap (count + 1))
  end.

(** What [os_Stat] returns in the world [w]. *)
Definition stat_files (w : World) (path : string) : option FileInfo * option error :=
  if decide (path = "") then (None, Some (ErrNotExist path))
  else match w_files w !! path with
       | Some _ => (Some (mkFileInfo path), None)
       | None => (None, Some (ErrNotExist path))
       end.


(** ** Strings *)

Definition LF : ascii := ascii_of_nat 10.
Definition CR : ascii := ascii_of_nat 13.

Fixpoint trim_left (c : ascii) (s : string) : string :=
  match s with
  | String a s' => if decide (a = c) then trim_left c s' else s
  | EmptyString => EmptyString
  end.

(** [strings.Trim(s, cutset)] for a cutset of one character. *)
Definition strings_Trim (s : string) (c : ascii) : string :=
  String.rev (trim_left c (String.rev (trim_left c s))).

(** [strings.Replace(s, old, "", -1)] for [old] of one character. *)
Fixpoint strings_Remove (s : string) (c : ascii) : string :=
  match s with
  | String a s' =>
      if decide (a = c) then strings_Remove s' c
      else String a (strings_Remove s' c)
  | EmptyString => EmptyString
  end.

(** [bufio.Reader.ReadString(delim)]: what is read up to the first
    [delim], the delimiter included; all there is when no delimiter
    comes. *)
Fixpoint ReadString (input : string) (delim : ascii) : string :=
  match input with
  | String a rest =>
      if decide (a = delim) then String a EmptyString
      else String a (ReadString rest delim)
  | EmptyString => EmptyString
  end.

(** [%v] of an error value. *)
Definition error_string (e : error) : string :=
  match e with
  | ErrNotExist path => "stat " +:+ path +:+ ": no such file or directory"
  | ErrPermission path => "open " +:+ path +:+ ": permission denied"
  | ErrMsg msg => msg
  end.

Definition fmt_v (err : option error) : string :=
  match err with
  | Some e => error_string e
  | None => "<nil>"
  end.

(** ** The pattern of the password check *)

Definition in_range (lo hi c : ascii) : bool :=
  (nat_of_ascii lo <=? nat_of_ascii c) && (nat_of_ascii c <=? nat_of_ascii hi).

(** The character class [[a-zA-Z1-9]] of the source. *)
Definition class_a_zA_Z1_9 (c : ascii) : bool :=
  in_range "a" "z" c || in_range "A" "Z" c || in_range "1" "9" c.

Fixpoint all_chars (p : ascii -> bool) (s : string) : bool :=
  match s with
  | EmptyString => true
  | String c s' => p c && all_chars p s'
  end.

(** [regexp.MustCompile("^[a-zA-Z1-9]+$").MatchString]: one character or
    more, every one of the class. *)
Definition MatchString (pass : string) : bool :=
  match pass with
  | EmptyString => false
  | String _ _ => all_chars class_a_zA_Z1_9 pass
  end.

Definition weakpassword : string := "weakpassword".

(** ** What a run is given *)

(** The token a run works with: the one of the environment, or the line of
    standard input without its line ends. *)
Definition token_of (w : World) : string :=
  let token := default "" (w_env w !! "DO_API_TOKEN") in
  if decide (token = "") then
    strings_Remove (strings_Trim (ReadString (w_stdin w) LF) LF) CR
  else token.

Definition run_counts (opts : DOOpts) : NodeCount :=
  {| CountEtcd := EtcdNodeCount opts;
     CountWorker := WorkerNodeCount opts;
     CountMaster := MasterNodeCount opts;
     CountBoostrap := if BootstrapNode opts then 1%Z else 0%Z |}.

(** ** The package's external collaborators *)

(** The [Provisioner] interface returned by [GetProvisioner]. *)
Class Provisioner : Type := {
  ProvisionNodes : DOOpts -> NodeCount -> ProvisionedNodes * option error;
  TerminateNodes : DOOpts -> option error
}.

Section Digitalocean.

Context {provisioner : Provisioner}.

(** Declared in sibling files of the package. *)
Variable WaitForSSH : ProvisionedNodes -> string -> option error.
Variable scpFile : string -> string -> string -> string -> string -> string * option error.
Variable KET_INSTALL_DIR : string.

(** [path/filepath]. *)
Variable filepath_Join : string -> string -> string.
Variable filepath_Base : string -> string.
Variable filepath_Abs : string -> string.

(** [html/template] on [plan.OverlayNetworkPlan]: the error of parsing it,
    and for a plan the text that executing the template writes, with the
    error of executing it. *)
Variable template_Parse : option error.
Variable template_Execute : Plan -> string * option error.

(** [bufio.Writer]: what a writer that has been given more than its buffer
    holds has passed on to the file, which depends on the sizes of the
    writes it was given. *)
Variable bufio_overflow : string -> string.

(** [math/rand] and the password library: the value of the n-th draw of
    [rand.Intn] for a bound, and the result of the n-th call of
    [garbler.NewPassword] for its requirements. *)
Variable rand_Intn : nat -> Z -> Z.
Variable garbler_NewPassword : PasswordStrengthRequirements -> nat -> string * option error.

Definition Intn (bound : Z) : M Z :=
  let* w := get in
  modify (set_rand (S (w_rand w))) ;;
  ret (rand_Intn (w_rand w) bound).

Definition NewPassword (reqs : PasswordStrengthRequirements) : M (string * option error) :=
  let* w := get in
  modify (set_garbler (S (w_garbler w))) ;;
  ret (garbler_NewPassword reqs (w_garbler w)).

Definition provision (opts : DOOpts) (counts : NodeCount) : M (ProvisionedNodes * option error) :=
  emit (EvProvision opts counts) ;;
  ret (ProvisionNodes opts counts).

Definition waitForSSH (nodes : ProvisionedNodes) (key : string) : M (option error) :=
  emit (EvWaitForSSH nodes key) ;;
  ret (WaitForSSH nodes key).

Definition scp (src dst user host key : string) : M (string * option error) :=
  emit (EvScp src dst user host key) ;;
  ret (scpFile src dst user host key).

(** [l[i]]: a panic when [i] is out of range. *)
Definition index {A} (l : list A) (i : nat) : M A :=
  match l !! i with
  | Some x => ret x
  | None => panic (IndexOutOfRange i (length l))
  end.

(** [s.Name()] on the [os.FileInfo] interface value [s]: a panic on [nil]. *)
Definition FileInfo_Name (s : option FileInfo) : M string :=
  match s with
  | Some info => ret (filepath_Base (InfoPath info))
  | None => panic NilDereference
  end.

(** The file [f] holds [text] from now on. *)
Definition write (f : File) (text : string) : M unit :=
  let* w := get in
  modify (set_files (<[Name f := text]> (w_files w))).

(** Of the [text] given to a [bufio.Writer] that is not flushed, what is in
    the file: nothing while the text fits the buffer of 4096 bytes. *)
Definition bufio_passed (text : string) : string :=
  if decide (String.length text <= 4096) then "" else bufio_overflow text.

(** ** Password generation *)

(** The [for] loop of [generateAlphaNumericPassword], cut at [fuel]
    iterations. *)
Fixpoint generate_loop (fuel : nat) (attempts : Z) : M string :=
  match fuel with
  | O => out_of_fuel
  | S fuel' =>
      let* uppercase := Intn 6 in
      let* digits := Intn 6 in
      let reqs := mkReqs 16 uppercase digits (-1) in
      let* (pass, err) := NewPassword reqs in
      match err with
      | Some _ => ret weakpassword
      | None =>
          if MatchString pass then ret pass
          else if (attempts =? 50)%Z then ret weakpassword
          else generate_loop fuel' (int_wrap (attempts + 1))
      end
  end.

(** [attempts] starts at 0 and the loop leaves when it is 50: 51 iterations
    are all it can make ([generate_loop_fuel] below). *)
Definition generateAlphaNumericPassword : M string := generate_loop 51 0.

(** ** Plan file *)

Definition makePlan (fuel : nat) (pln : Plan) (opts : DOOpts) (nodes : ProvisionedNodes)
  : M (option error) :=
  match template_Parse with
  | Some e => ret (Some e)
  | None =>
      let* (f, err) := makeUniqueFile fuel 0 in
      match f, err with
      | _, Some e => ret (Some e)
      | None, None => panic NilDereference
      | Some f, None =>
          let (text, err) := template_Execute pln in
          write f (bufio_passed text) ;;
          match err with
          | Some e => ret (Some e)   (* the writer is not flushed *)
          | None =>
              write f text ;;         (* w.Flush() *)
              (if BootstrapNode opts then
                 let* boot := index (Boostrap nodes) 0 in
                 let planPath := filepath_Abs (Name f) in
                 Println ["Copying kismatic plan file to bootstrap node:"; planPath] ;;
                 let* root := os_Getenv "DO_KET_INSTALL_DIR" in
                 let root := if decide (root = "") then KET_INSTALL_DIR else root in
                 let destPath := root +:+ "kismatic - cluster.yaml" in
                 let* (out, scperr) :=
                   scp planPath destPath (SSHUser opts) (PublicIPv4 boot) (SshPrivate opts) in
                 match scperr with
                 | Some _ => ret tt   (* the value of fmt.Errorf is dropped *)
                 | None => Println ["Output:"; out]
                 end
               else ret tt) ;;
              Println ["To install your cluster, run:"] ;;
              Println ["./kismatic install apply -f " +:+ Name f] ;;
              ret None
          end
      end
  end.

Fixpoint printRole_nodes (nodes : list Node) : M unit :=
  match nodes with
  | [] => ret tt
  | node :: rest =>
      Println ["  " +:+ ID node +:+ " (" +:+ PublicIPv4 node +:+ ", "
               +:+ PrivateIPv4 node +:+ ")"] ;;
      printRole_nodes rest
  end.

Definition printRole (title : string) (nodes : list Node) : M unit :=
  Println [title +:+ ":"] ;;
  printRole_nodes nodes.

Definition printNodes (nodes : ProvisionedNodes) : M unit :=
  printRole "Etcd" (Etcd nodes) ;;
  printRole "Master" (Master nodes) ;;
  printRole "Worker" (Worker nodes) ;;
  printRole "Bootstrap" (Boostrap nodes).

(** ** SSH key and provisioning *)

Definition validateKeyFile (opts : DOOpts) : M (string * string * option error) :=
  let* sshKeyPath := os_Getenv "DO_SECRET_ACCESS_KEY" in
  if decide (sshKeyPath = "") then
    let* w := get in
    let (dir, err) := w_execdir w in
    match err with
    | Some _ => Println ["Cannot get path to exec"; fmt_v err]
    | None => ret tt
    end ;;
    let sshKeyPath := filepath_Join dir "ssh/" in
    Println ["Trying to locate key in ssh/ folder"; sshKeyPath] ;;
    let filePath := filepath_Join sshKeyPath "cluster.pem" in
    let* (_, staterr) := os_Stat filePath in
    if os_IsNotExist staterr then
      ret ("", "", Some (ErrMsg ("Private SSH file was not found in expected location. Create your own key pair and reference in options to the provision command. Change file permissions to allow w/r for the user (chmod 600) " +:+ fmt_v err)))
    else ret (filePath, filePath +:+ ".pub", None)
  else ret (sshKeyPath, sshKeyPath +:+ ".pub", None).

(** The opening lines of [makeInfra]: the token of the environment, or else
    the line typed on standard input. *)
Definition readToken (opts : DOOpts) : M DOOpts :=
  let* token := os_Getenv "DO_API_TOKEN" in
  let opts := set_Token token opts in
  Println ["DO API token env"; Token opts] ;;
  if decide (Token opts = "") then
    Println ["Enter Digital Ocean API Token: "] ;;
    let* w := get in
    let url := ReadString (w_stdin w) LF in
    let opts := set_Token (strings_Trim url LF) opts in
    ret (set_Token (strings_Remove (Token opts) CR) opts)
  else ret opts.

(** The [plan.Plan] literal of [makeInfra], its operands evaluated in the
    order they are written. *)
Definition assemblePlan (opts : DOOpts) (nodes : ProvisionedNodes) : M Plan :=
  let storageNodes := if Storage opts then Worker nodes else [] in
  let remoteSSH := "/ket/ssh/" +:+ SshKeyName opts in
  let* password := generateAlphaNumericPassword in
  let* ingress := index (Worker nodes) 0 in
  let* fqdn := index (Master nodes) 0 in
  let* shortName := index (Master nodes) 0 in
  let* user := index (Master nodes) 0 in
  ret {| AdminPassword := password;
         PlanEtcd := Etcd nodes;
         PlanMaster := Master nodes;
         PlanWorker := Worker nodes;
         Ingress := [ingress];
         PlanStorage := storageNodes;
         MasterNodeFQDN := PublicIPv4 fqdn;
         MasterNodeShortName := PublicIPv4 shortName;
         SSHKeyFile := remoteSSH;
         PlanSSHUser := NodeSSHUser user |}.

Definition makeInfra (fuel : nat) (opts : DOOpts) : M (option error) :=
  let* opts := readToken opts in
  let* (sshPrivate, sshPublic, errkey) := validateKeyFile opts in
  let* (s, _) := os_Stat sshPrivate in
  let* name := FileInfo_Name s in
  let opts := set_SshKeyName name opts in
  Println ["SSH file name"; SshKeyName opts] ;;
  let opts := set_SshPrivate sshPrivate opts in
  let opts := set_SshPublic sshPublic opts in
  match errkey with
  | Some e => ret (Some e)
  | None =>
      Println ["Provisioning"] ;;
      let bootCount := if BootstrapNode opts then 1%Z else 0%Z in
      let* (nodes, err) :=
        provision opts {| CountEtcd := EtcdNodeCount opts;
                          CountWorker := WorkerNodeCount opts;
                          CountMaster := MasterNodeCount opts;
                          CountBoostrap := bootCount |} in
      match err with
      | Some e => ret (Some e)
      | None =>
          Println ["Waiting for SSH"] ;;
          let* err := waitForSSH nodes (SshPrivate opts) in
          match err with
          | Some e => ret (Some e)
          | None =>
              if NoPlan opts then
                Println ["Your instances are ready." +:+ String LF ""] ;;
                printNodes nodes ;;
                ret None
              else
                let* pln := assemblePlan opts nodes in
                makePlan fuel pln opts nodes
          end
      end
  end.

Definition deleteInfra (opts : DOOpts) : M (option error) :=
  let* token := os_Getenv "DO_API_TOKEN" in
  let opts := set_Token token opts in
  let* opts :=
    (if decide (Token opts = "") then
       Print "Enter Digital Ocean API Token: " ;;
       let* w := get in
       let url := ReadString (w_stdin w) LF in
       let opts := set_Token (strings_Trim url LF) opts in
       ret (set_Token (strings_Remove (Token opts) CR) opts)
     else ret opts) in
  ret (TerminateNodes opts).

(** ** Definitions for the statements *)

(** What the i-th iteration of a run that starts in [w] gets from the
    password library, and the world after [n] iterations. *)
Definition attempt (w : World) (i : nat) : string * option error :=
  garbler_NewPassword
    (mkReqs 16 (rand_Intn (2 * i + w_rand w) 6)
               (rand_Intn (S (2 * i + w_rand w)) 6) (-1))
    (i + w_garbler w).

Definition after_attempts (w : World) (n : nat) : World :=
  set_garbler (n + w_garbler w) (set_rand (2 * n + w_rand w) w).

(** The attempt gave a password, and the pattern refused it. *)
Definition rejected (o : string * option error) : Prop :=
  snd o = None /\ MatchString (fst o) = false.

(** The key file looked for when the environment names none. *)
Definition default_key_path (w : World) : string :=
  filepath_Join (filepath_Join (fst (w_execdir w)) "ssh/") "cluster.pem".

(** The private key file of a run. *)
Definition key_path (w : World) : string :=
  let sshKeyPath := default "" (w_env w !! "DO_SECRET_ACCESS_KEY") in
  if decide (sshKeyPath = "") then default_key_path w else sshKeyPath.

Definition key_present (w : World) : Prop :=
  key_path w ≠ "" /\ is_Some (w_files w !! key_path w).

Definition key_absent (w : World) : Prop :=
  key_path w = "" \/ w_files w !! key_path w = None.

(** The options as [makeInfra] has set them when it provisions. *)
Definition run_opts (opts : DOOpts) (w : World) : DOOpts :=
  set_SshPublic (key_path w +:+ ".pub")
    (set_SshPrivate (key_path w)
       (set_SshKeyName (filepath_Base (key_path w))
          (set_Token (token_of w) opts))).

(** The directory the plan is copied to on the bootstrap node. *)
Definition staging_root (w : World) : string :=
  let root := default "" (w_env w !! "DO_KET_INSTALL_DIR") in
  if decide (root = "") then KET_INSTALL_DIR else root.

(** What the copy of the plan file [f] to the node [boot] adds to the
    trace: the announcement, the copy, and its output when it succeeds. *)
Definition staging_events (f : File) (opts : DOOpts) (boot : Node) (w : World)
  : list Event :=
  let planPath := filepath_Abs (Name f) in
  let destPath := staging_root w +:+ "kismatic - cluster.yaml" in
  [EvPrint ["Copying kismatic plan file to bootstrap node:"; planPath];
   EvScp planPath destPath (SSHUser opts) (PublicIPv4 boot) (SshPrivate opts)]
  ++ match scpFile planPath destPath (SSHUser opts) (PublicIPv4 boot) (SshPrivate opts) with
     | (out, None) => [EvPrint ["Output:"; out]]
     | (_, Some _) => []
     end.

End Digitalocean.

(** ** Plan names, processes, patterns and traces *)

(** The file name pattern: the base name, or the base name with the
    suffix [-n] for [n >= 1]. *)
Definition plan_name (n : nat) : string :=
  match n with
  | O => "kismatic-cluster.yaml"
  | S _ => "kismatic-cluster-" +:+ pretty n +:+ ".yaml"
  end.

(** [n] is the first free suffix of the directory of [w]. *)
Definition first_free (w : World) (n : nat) : Prop :=
  w_files w !! plan_name n = None /\
  forall k : nat, k < n -> is_Some (w_files w !! plan_name k).

(** The count of the i-th call of the recursion that starts at [count]. *)
Definition probe_count (count : Z) (i : nat) : Z :=
  Nat.iter i (fun c => int_wrap (c + 1)) count.

(** The directory that holds the first [n] names the recursion tries:
    [kismatic-cluster.yaml], [kismatic-cluster-1.yaml], ... *)
Definition crowded (n : nat) : World :=
  {| w_env := ∅; w_stdin := ""; w_execdir := ("", None);
     w_files := list_to_map ((fun i => (candidate (probe_count 0 i), "")) <$> seq 0 n);
     w_denied := ∅; w_rand := 0; w_garbler := 0; w_trace := [] |}.

(** [makeUniqueFile] as the sequence of its system calls: a process is
    about to stat the name of [count], about to create a name it found
    absent, or has returned. *)
Inductive Proc : Type :=
| Probing (count : Z)
| Creating (filename : string)
| Returned (r : option File * option error).

Definition proc_step (p : Proc) : M Proc :=
  match p with
  | Probing count =>
      let filename := candidate count in
      let* (_, err) := os_Stat filename in
      if os_IsNotExist err then ret (Creating filename)
      else ret (Probing (int_wrap (count + 1)))
  | Creating filename =>
      let* r := os_Create filename in
      ret (Returned r)
  | Returned r => ret (Returned r)
  end.

Fixpoint proc_steps (n : nat) (p : Proc) : M Proc :=
  match n with
  | O => ret p
  | S n' => let* p' := proc_step p in proc_steps n' p'
  end.

(** Two processes on one file system; the schedule says which one makes
    the next system call. *)
Fixpoint run_schedule (sched : list bool) (ps : Proc * Proc) : M (Proc * Proc) :=
  match sched with
  | [] => ret ps
  | true :: sched' =>
      let* p := proc_step (fst ps) in run_schedule sched' (p, snd ps)
  | false :: sched' =>
      let* p := proc_step (snd ps) in run_schedule sched' (fst ps, p)
  end.

Definition empty_dir : World :=
  {| w_env := ∅; w_stdin := ""; w_execdir := ("", None); w_files := ∅;
     w_denied := ∅; w_rand := 0; w_garbler := 0; w_trace := [] |}.

(** Exclusive allocation: whatever the interleaving, two allocations never
    return the same name. *)
Definition exclusive_allocation : Prop :=
  forall (sched : list bool) (w w' : World) (f1 f2 : File),
    run_schedule sched (Probing 0, Probing 0) w
    = (Ok (Returned (Some f1, None), Returned (Some f2, None)), w') ->
    Name f1 ≠ Name f2.

(** The character class [[a-zA-Z0-9]]: ASCII letters and digits. *)
Definition class_alnum (c : ascii) : bool :=
  in_range "a" "z" c || in_range "A" "Z" c || in_range "0" "9" c.

(** A match of [^[a-zA-Z0-9]+$]. *)
Definition alphanumeric (s : string) : bool :=
  match s with
  | EmptyString => false
  | String _ _ => all_chars class_alnum s
  end.

Definition is_print (e : Event) : Prop :=
  match e with
  | EvPrint _ => True
  | _ => False
  end.

(** The steps before the plan: printing lines, provisioning, waiting. *)
Definition is_setup (e : Event) : Prop :=
  match e with
  | EvPrint _ | EvProvision _ _ | EvWaitForSSH _ _ => True
  | _ => False
  end.

(** [w'] is [w] with events of kind [P] added to the trace. *)
Definition extends (P : Event -> Prop) (w w' : World) : Prop :=
  exists t : list Event, Forall P t /\ w' = set_trace (w_trace w ++ t) w.

Definition emits {A} (P : Event -> Prop) (m : M A) : Prop :=
  forall w r w', m w = (r, w') -> extends P w w'.

(** The two lines that close a run of [makePlan]. *)
Definition install_hint (f : File) : list Event :=
  [EvPrint ["To install your cluster, run:"];
   EvPrint ["./kismatic install apply -f " +:+ Name f]].

(** The lines [printRole] prints for a role. *)
Definition node_line (node : Node) : Event :=
  EvPrint ["  " +:+ ID node +:+ " (" +:+ PublicIPv4 node +:+ ", "
           +:+ PrivateIPv4 node +:+ ")"].

Definition role_lines (title : string) (nodes : list Node) : list Event :=
  EvPrint [title +:+ ":"] :: (node_line <$> nodes).

(** [w'] is a later state of [w]: the environment and standard input are
    the same, the trace has grown, every file of [w] is there with the
    contents it had, a file that is new bears a name [makeUniqueFile]
    tries, and the counters of the random sources have not gone back. *)
Definition advances (w w' : World) : Prop :=
  w_env w' = w_env w /\ w_stdin w' = w_stdin w /\
  w_execdir w' = w_execdir w /\ w_denied w' = w_denied w /\
  (exists t : list Event, w_trace w' = w_trace w ++ t) /\
  (forall path text, w_files w !! path = Some text -> w_files w' !! path = Some text) /\
  (forall path, is_Some (w_files w' !! path) ->
     is_Some (w_files w !! path) \/ exists count : Z, path = candidate count) /\
  w_rand w <= w_rand w' /\ w_garbler w <= w_garbler w'.

Definition steps {A} (m : M A) : Prop :=
  forall w r w', m w = (r, w') -> advances w w'.

(** No line feed and no carriage return in [s]; no [0] in [s]. *)
Definition no_line_end (s : string) : bool :=
  all_chars (fun c => negb (Ascii.eqb c LF) && negb (Ascii.eqb c CR)) s.

Definition no_zero (s : string) : bool :=
  all_chars (fun c => negb (Ascii.eqb c "0")) s.

(** ** Inputs of the examples *)

(** A directory with two earlier plans. *)
Definition two_plans : World :=
  {| w_env := ∅; w_stdin := ""; w_execdir := ("", None);
     w_files := <["kismatic-cluster-1.yaml" := "b"]>
                  (<["kismatic-cluster.yaml" := "a"]> ∅);
     w_denied := ∅; w_rand := 0; w_garbler := 0; w_trace := [] |}.

(** A file system where the stat of one name fails on the disk, and one
    where the directory cannot be searched. *)
Definition stat_broken (w : World) (path : string) : option FileInfo * option error :=
  if decide (path = "kismatic-cluster-2.yaml")
  then (None, Some (ErrMsg "stat kismatic-cluster-2.yaml: input/output error"))
  else stat_files w path.

Definition stat_unsearchable (path : string) : option FileInfo * option error :=
  (None, Some (ErrMsg ("stat " +:+ path +:+ ": permission denied"))).

(** Sources for the examples: a constant random source; a library that
    fails on its first call only; one whose first two passwords carry
    punctuation; one that keeps to its requirements. *)
Definition rand_zero : nat -> Z -> Z := fun _ _ => 0%Z.

Definition garbler_fails_once (reqs : PasswordStrengthRequirements) (n : nat)
  : string * option error :=
  match n with
  | O => ("", Some (ErrMsg "requirements failed validation"))
  | S _ => ("Abcdefgh12345678", None)
  end.

Definition garbler_punctuates_twice (reqs : PasswordStrengthRequirements) (n : nat)
  : string * option error :=
  match n with
  | 0 | 1 => ("Abcdefgh1234567!", None)
  | _ => ("Abcdefgh12345678", None)
  end.

Definition garbler_zero_first (reqs : PasswordStrengthRequirements) (n : nat)
  : string * option error :=
  match n with
  | O => ("Abcdefgh12345670", None)
  | S _ => ("Abcdefgh12345678", None)
  end.

Definition garbler_good (reqs : PasswordStrengthRequirements) (n : nat)
  : string * option error :=
  ("Kuxavopi7Rezumat4", None).

Definition demo_node (role : string) (i : nat) : Node :=
  {| ID := role +:+ "-" +:+ pretty i;
     PublicIPv4 := "203.0.113." +:+ pretty i;
     PrivateIPv4 := "10.0.0." +:+ pretty i;
     NodeSSHUser := "root" |}.

Definition demo_nodes (role : string) (count : Z) : list Node :=
  demo_node role <$> seq 0 (Z.to_nat count).

(** A provisioner that creates the nodes it is asked for. *)
Definition demo_provisioner : Provisioner :=
  {| ProvisionNodes := fun _ counts =>
       ({| Etcd := demo_nodes "etcd" (CountEtcd counts);
           Master := demo_nodes "master" (CountMaster counts);
           Worker := demo_nodes "worker" (CountWorker counts);
           Boostrap := demo_nodes "bootstrap" (CountBoostrap counts) |}, None);
     TerminateNodes := fun _ => None |}.

Definition demo_WaitForSSH : ProvisionedNodes -> string -> option error :=
  fun _ _ => None.

Definition demo_scp_refused
  : string -> string -> string -> string -> string -> string * option error :=
  fun _ _ _ _ _ => ("", Some (ErrMsg "ssh: connect to host: connection refused")).

Definition demo_Join (a b : string) : string := a +:+ "/" +:+ b.

Fixpoint base_from (s acc : string) : string :=
  match s with
  | EmptyString => acc
  | String c s' =>
      if decide (c = "/"%char) then base_from s' ""
      else base_from s' (acc +:+ String c "")
  end.

Definition demo_Base (path : string) : string := base_from path "".

Definition demo_Abs (path : string) : string := "/work/" +:+ path.

(** A machine with no token in the environment, where the token is typed
    and a second line follows it; and a provisioner that knows that
    token only. *)
Definition typing_world : World :=
  {| w_env := ∅;
     w_stdin := "dop_v1_token" +:+ String CR (String LF ("yes" +:+ String LF ""));
     w_execdir := ("/opt/provision", None);
     w_files := ∅; w_denied := ∅; w_rand := 0; w_garbler := 0; w_trace := [] |}.

Definition token_provisioner : Provisioner :=
  {| ProvisionNodes := fun _ _ => (mkProvisionedNodes [] [] [] [], None);
     TerminateNodes := fun opts =>
       if decide (Token opts = "dop_v1_token") then None
       else Some (ErrMsg "Unable to authenticate you") |}.

(** A writer that has passed on its first full buffer. *)
Definition demo_overflow (text : string) : string := String.substring 0 4096 text.

Definition demo_Execute (pln : Plan) : string * option error :=
  ("admin_password: " +:+ AdminPassword pln, None).

(** The options of [create] with the defaults of its flags, for [workers]
    worker nodes. *)
Definition demo_opts (workers : Z) (noplan storage : bool) : DOOpts :=
  {| Token := ""; ClusterTag := "apprenda";
     EtcdNodeCount := 1; MasterNodeCount := 1; WorkerNodeCount := workers;
     NoPlan := noplan; InstanceType := "1gb"; WorkerType := "4gb";
     Image := "ubuntu-16-04-x64"; Region := "tor1"; Storage := storage;
     SSHUser := "root"; SshKeyName := ""; SshPrivate := ""; SshPublic := "";
     BootstrapNode := true; RemoveKey := false |}.

(** A machine with the token and the key named in the environment, and the
    key file in place; and one with the token only. *)
Definition keyed_world : World :=
  {| w_env := <["DO_SECRET_ACCESS_KEY" := "/keys/cluster.pem"]>
                (<["DO_API_TOKEN" := "token"]> ∅);
     w_stdin := ""; w_execdir := ("/opt/provision", None);
     w_files := <["/keys/cluster.pem" := "private key"]> ∅;
     w_denied := ∅; w_rand := 0; w_garbler := 0; w_trace := [] |}.

Definition keyless_world : World :=
  {| w_env := <["DO_API_TOKEN" := "token"]> ∅;
     w_stdin := ""; w_execdir := ("/opt/provision", None);
     w_files := ∅;
     w_denied := ∅; w_rand := 0; w_garbler := 0; w_trace := [] |}.

Definition demo_scp_ok
  : string -> string -> string -> string -> string -> string * option error :=
  fun _ _ _ _ _ => ("kismatic-cluster.yaml 100%", None).

Definition demo_Execute_fails (pln : Plan) : string * option error :=
  ("admin_password: ", Some (ErrMsg "template: planAWSOverlay: can't evaluate field")).

(** A provisioner whose account has reached its droplet limit, and a wait
    that gives up. *)
Definition failing_provisioner : Provisioner :=
  {| ProvisionNodes := fun _ _ =>
       (mkProvisionedNodes [] [] [] [], Some (ErrMsg "droplet limit exceeded"));
     TerminateNodes := fun _ => Some (ErrMsg "droplet limit exceeded") |}.

Definition demo_WaitForSSH_timeout : ProvisionedNodes -> string -> option error :=
  fun _ _ => Some (ErrMsg "Unable to SSH into nodes in a timely fashion").

Definition demo_opts_no_bootstrap : DOOpts :=
  {| Token := ""; ClusterTag := "apprenda";
     EtcdNodeCount := 1; MasterNodeCount := 1; WorkerNodeCount := 1;
     NoPlan := false; InstanceType := "1gb"; WorkerType := "4gb";
     Image := "ubuntu-16-04-x64"; Region := "tor1"; Storage := false;
     SSHUser := "root"; SshKeyName := ""; SshPrivate := ""; SshPublic := "";
     BootstrapNode := false; RemoveKey := false |}.

(** A directory with one earlier plan, in which the next plan name cannot
    be created. *)
Definition denied_world : World :=
  {| w_env := ∅; w_stdin := ""; w_execdir := ("", None);
     w_files := <["kismatic-cluster.yaml" := "a"]> ∅;
     w_denied := {["kismatic-cluster-1.yaml"]};
     w_rand := 0; w_garbler := 0; w_trace := [] |}.

(** The environment names a key file that is not there. *)
Definition stale_key_world : World :=
  {| w_env := <["DO_SECRET_ACCESS_KEY" := "/keys/old.pem"]>
                (<["DO_API_TOKEN" := "token"]> ∅);
     w_stdin := ""; w_execdir := ("/opt/provision", None);
     w_files := ∅;
     w_denied := ∅; w_rand := 0; w_garbler := 0; w_trace := [] |}.

Definition demo_plan : Plan :=
  mkPlan "Kuxavopi7Rezumat4" [] [] [] [] [] "" "" "" "root".

Definition demo_topology (workers : Z) : ProvisionedNodes :=
  {| Etcd := demo_nodes "etcd" 1;
     Master := demo_nodes "master" 1;
     Worker := demo_nodes "worker" workers;
     Boostrap := demo_nodes "bootstrap" 1 |}.

Definition demo_makeInfra (scpFile : string -> string -> string -> string -> string -> string * option error)
  : nat -> DOOpts -> M (option error) :=
  @makeInfra demo_provisioner demo_WaitForSSH scpFile "/ket/" demo_Join
    demo_Base demo_Abs None demo_Execute demo_overflow rand_zero garbler_good.

(** * Properties *)

(** ** Runs of the monad *)

Lemma bind_Ok {A B} (m : M A) (k : A -> M B) w a w' :
  m w = (Ok a, w') -> bind m k w = k a w'.
Proof. unfold bind. intros ->. reflexivity. Qed.

(** ** Names of plan files *)

Lemma int_wrap_id z : (- 2 ^ 63 <= z < 2 ^ 63)%Z -> int_wrap z = z.
Proof.
  intros Hz. unfold int_wrap.
  rewrite Z.mod_small by lia. lia.
Qed.

Lemma candidate_plan_name (n : nat) : candidate (Z.of_nat n) = plan_name n.
Proof.
  destruct n as [|n]; [reflexivity|].
  unfold candidate, plan_name, strconv_Itoa.
  replace (0 <? Z.of_nat (S n))%Z with true by (symmetry; apply Z.ltb_lt; lia).
  reflexivity.
Qed.

Lemma candidate_nonpos z : (z <= 0)%Z -> candidate z = "kismatic-cluster.yaml".
Proof.
  intros Hz. unfold candidate.
  replace (0 <? z)%Z with false by (symmetry; apply Z.ltb_ge; lia).
  reflexivity.
Qed.

Lemma candidate_nonempty z : candidate z ≠ "".
Proof. unfold candidate. destruct (0 <? z)%Z; discriminate. Qed.

Lemma append_length (s t : string) :
  String.length (s +:+ t) = String.length s + String.length t.
Proof. induction s as [|a s IH]; simpl; [reflexivity|]. rewrite IH. reflexivity. Qed.

Lemma append_inv_tail (s1 s2 t : string) : s1 +:+ t = s2 +:+ t -> s1 = s2.
Proof.
  revert s2. induction s1 as [|a s1 IH]; intros [|b s2] Heq; simpl in Heq.
  - reflexivity.
  - apply (f_equal String.length) in Heq.
    rewrite !append_length in Heq. simpl in Heq. lia.
  - apply (f_equal String.length) in Heq.
    rewrite !append_length in Heq. simpl in Heq. lia.
  - injection Heq as -> Heq. f_equal. apply IH, Heq.
Qed.

Lemma plan_name_inj (a b : nat) : plan_name a = plan_name b -> a = b.
Proof.
  destruct a as [|a], b as [|b]; simpl; intros Heq.
  - reflexivity.
  - discriminate.
  - discriminate.
  - apply (String.app_inj "kismatic-cluster-") in Heq.
    apply append_inv_tail in Heq.
    apply (inj pretty) in Heq. exact Heq.
Qed.

(** ** One probe of [makeUniqueFile] *)

Lemma os_Stat_taken path w :
  is_Some (w_files w !! path) -> path ≠ "" ->
  os_Stat path w = (Ok (Some (mkFileInfo path), None), w).
Proof.
  intros [c Hc] Hne. unfold os_Stat, bind, get.
  destruct (decide (path = "")) as [?|_]; [done|].
  rewrite Hc. reflexivity.
Qed.

Lemma os_Stat_free path w :
  w_files w !! path = None ->
  os_Stat path w = (Ok (None, Some (ErrNotExist path)), w).
Proof.
  intros Hc. unfold os_Stat, bind, get.
  destruct (decide (path = "")) as [?|_]; [reflexivity|].
  rewrite Hc. reflexivity.
Qed.

Lemma makeUniqueFile_taken fuel count w :
  is_Some (w_files w !! candidate count) ->
  makeUniqueFile (S fuel) count w = makeUniqueFile fuel (int_wrap (count + 1)) w.
Proof.
  intros Hc. cbn [makeUniqueFile].
  rewrite (bind_Ok _ _ _ _ _ (os_Stat_taken _ _ Hc (candidate_nonempty count))).
  reflexivity.
Qed.

Lemma makeUniqueFile_free fuel count w :
  w_files w !! candidate count = None ->
  makeUniqueFile (S fuel) count w = os_Create (candidate count) w.
Proof.
  intros Hc. cbn [makeUniqueFile].
  rewrite (bind_Ok _ _ _ _ _ (os_Stat_free _ _ Hc)).
  reflexivity.
Qed.

Lemma os_Create_allowed name w :
  name ∉ w_denied w ->
  os_Create name w
  = (Ok (Some (mkFile name), None), set_files (<[name := ""]> (w_files w)) w).
Proof.
  intros Hd. unfold os_Create, bind, get.
  destruct (decide (name ∈ w_denied w)) as [?|_]; [done|].
  reflexivity.
Qed.

Lemma os_Create_denied name w :
  name ∈ w_denied w ->
  os_Create name w = (Ok (None, Some (ErrPermission name)), w).
Proof.
  intros Hd. unfold os_Create, bind, get.
  destruct (decide (name ∈ w_denied w)) as [_|?]; [|done].
  reflexivity.
Qed.

Lemma first_free_unique w a b : first_free w a -> first_free w b -> a = b.
Proof.
  intros [Ha Ha'] [Hb Hb'].
  destruct (Nat.lt_trichotomy a b) as [Hlt|[Heq|Hlt]]; [|exact Heq|].
  - apply Hb' in Hlt. rewrite Ha in Hlt. destruct Hlt as [? ?]. discriminate.
  - apply Ha' in Hlt. rewrite Hb in Hlt. destruct Hlt as [? ?]. discriminate.
Qed.

(** Probing from [count] with the names [count .. count + d - 1] taken and
    [count + d] free: [d] calls are not enough, any more are, and the call
    that ends the recursion is the [os.Create] of name [count + d]. *)
Lemma makeUniqueFile_probe (d : nat) : forall (count : nat) (w : World),
  (Z.of_nat (count + d) < 2 ^ 63)%Z ->
  (forall k : nat, count <= k < count + d -> is_Some (w_files w !! plan_name k)) ->
  w_files w !! plan_name (count + d) = None ->
  makeUniqueFile d (Z.of_nat count) w = (OutOfFuel, w) /\
  forall fuel : nat, d < fuel ->
    makeUniqueFile fuel (Z.of_nat count) w = os_Create (plan_name (count + d)) w.
Proof.
  induction d as [|d IH]; intros count w Hrange Htaken Hfree.
  - split; [reflexivity|].
    intros [|fuel] Hfuel; [lia|].
    rewrite Nat.add_0_r in *.
    rewrite makeUniqueFile_free by (rewrite candidate_plan_name; exact Hfree).
    rewrite candidate_plan_name. reflexivity.
  - assert (Hstep : int_wrap (Z.of_nat count + 1) = Z.of_nat (S count)).
    { rewrite int_wrap_id; lia. }
    assert (Hc : is_Some (w_files w !! candidate (Z.of_nat count))).
    { rewrite candidate_plan_name. apply Htaken. lia. }
    destruct (IH (S count) w) as [IH1 IH2].
    + replace (S count + d) with (count + S d) by lia. exact Hrange.
    + intros k Hk. apply Htaken. lia.
    + replace (S count + d) with (count + S d) by lia. exact Hfree.
    + split.
      * rewrite makeUniqueFile_taken, Hstep by exact Hc. exact IH1.
      * intros [|fuel] Hfuel; [lia|].
        rewrite makeUniqueFile_taken, Hstep by exact Hc.
        rewrite IH2 by lia.
        replace (S count + d) with (count + S d) by lia. reflexivity.
Qed.

(** A directory of [n] files leaves one of the [n + 1] first names free. *)
Lemma some_name_free (w : World) :
  exists n : nat, n <= size (w_files w) /\ w_files w !! plan_name n = None.
Proof.
  set (N := size (w_files w)).
  set (names := plan_name <$> seq 0 (S N)).
  destruct (decide (Forall (fun name => name ∈ dom (w_files w)) names)) as [Hall|Hex].
  - exfalso.
    assert (Hsub : list_to_set names ⊆ dom (w_files w)).
    { intros x Hx. apply elem_of_list_to_set in Hx.
      rewrite Forall_forall in Hall. apply Hall, Hx. }
    apply subseteq_size in Hsub.
    rewrite size_dom in Hsub.
    rewrite size_list_to_set in Hsub.
    + unfold names in Hsub. rewrite length_fmap, length_seq in Hsub. fold N in Hsub. lia.
    + unfold names. apply NoDup_fmap_2; [|apply NoDup_seq].
      intros a b. apply plan_name_inj.
  - apply not_Forall_Exists in Hex; [|intros x; apply _].
    apply Exists_exists in Hex as (name & Hin & Hfree).
    unfold names in Hin. apply list_elem_of_fmap in Hin as (n & -> & Hn).
    apply elem_of_seq in Hn.
    exists n. split; [lia|].
    simpl in Hfree. apply not_elem_of_dom in Hfree. exact Hfree.
Qed.

Lemma first_free_search (w : World) (d : nat) : forall c : nat,
  (forall k : nat, k < c -> is_Some (w_files w !! plan_name k)) ->
  (exists n : nat, c <= n < c + d /\ w_files w !! plan_name n = None) ->
  exists n : nat, c <= n < c + d /\ first_free w n.
Proof.
  induction d as [|d IH]; intros c Hbelow (n & Hn & Hfree); [lia|].
  destruct (w_files w !! plan_name c) as [x|] eqn:Hc.
  - destruct (IH (S c)) as (m & Hm & Hff).
    + intros k Hk. destruct (decide (k = c)) as [->|Hne]; [eauto|].
      apply Hbelow. lia.
    + exists n. split; [|exact Hfree].
      destruct (decide (n = c)) as [->|Hne]; [congruence|lia].
    + exists m. split; [lia|exact Hff].
  - exists c. split; [lia|]. split; [exact Hc|exact Hbelow].
Qed.

Lemma first_free_exists (w : World) :
  exists n : nat, n <= size (w_files w) /\ first_free w n.
Proof.
  destruct (some_name_free w) as (n & Hn & Hfree).
  destruct (first_free_search w (S n) 0) as (m & Hm & Hff).
  - intros k Hk. lia.
  - exists n. split; [lia|exact Hfree].
  - exists m. split; [lia|exact Hff].
Qed.

(** What a successful [makeUniqueFile] has done: the name it returns was
    free, and is now an empty file. *)
Lemma makeUniqueFile_creates (fuel : nat) : forall (count : Z) w f w',
  makeUniqueFile fuel count w = (Ok (Some f, None), w') ->
  w_files w !! Name f = None /\
  w' = set_files (<[Name f := ""]> (w_files w)) w.
Proof.
  induction fuel as [|fuel IH]; intros count w f w' Hrun; [discriminate|].
  destruct (w_files w !! candidate count) as [x|] eqn:Hc.
  - rewrite makeUniqueFile_taken in Hrun by eauto.
    eapply IH, Hrun.
  - rewrite makeUniqueFile_free in Hrun by exact Hc.
    destruct (decide (candidate count ∈ w_denied w)) as [Hd|Hd].
    + rewrite os_Create_denied in Hrun by exact Hd. discriminate.
    + rewrite os_Create_allowed in Hrun by exact Hd.
      injection Hrun as <- <-. split; [exact Hc|reflexivity].
Qed.

(** The only error [makeUniqueFile] returns is the one of [os.Create]. *)
Lemma makeUniqueFile_error (fuel : nat) : forall (count : Z) w f e w',
  makeUniqueFile fuel count w = (Ok (f, Some e), w') ->
  exists name, e = ErrPermission name /\ name ∈ w_denied w /\ f = None /\ w' = w.
Proof.
  induction fuel as [|fuel IH]; intros count w f e w' Hrun; [discriminate|].
  destruct (w_files w !! candidate count) as [x|] eqn:Hc.
  - rewrite makeUniqueFile_taken in Hrun by eauto.
    eapply IH, Hrun.
  - rewrite makeUniqueFile_free in Hrun by exact Hc.
    destruct (decide (candidate count ∈ w_denied w)) as [Hd|Hd].
    + rewrite os_Create_denied in Hrun by exact Hd.
      injection Hrun as <- <- <-. eauto.
    + rewrite os_Create_allowed in Hrun by exact Hd. discriminate.
Qed.

Lemma probe_count_S count i :
  probe_count count (S i) = probe_count (int_wrap (count + 1)) i.
Proof. unfold probe_count. rewrite Nat.iter_succ_r. reflexivity. Qed.

Lemma makeUniqueFile_exhausted (fuel : nat) : forall (count : Z) w,
  (forall i : nat, i < fuel -> is_Some (w_files w !! candidate (probe_count count i))) ->
  makeUniqueFile fuel count w = (OutOfFuel, w).
Proof.
  induction fuel as [|fuel IH]; intros count w Htaken; [reflexivity|].
  rewrite makeUniqueFile_taken by (apply (Htaken 0); lia).
  apply IH. intros i Hi. rewrite <- probe_count_S. apply Htaken. lia.
Qed.

Lemma probe_count_small (i : nat) :
  (Z.of_nat i < 2 ^ 63)%Z -> probe_count 0 i = Z.of_nat i.
Proof.
  induction i as [|i IH]; intros Hi; [reflexivity|].
  change (probe_count 0 (S i)) with (int_wrap (probe_count 0 i + 1)).
  rewrite IH by lia. rewrite int_wrap_id; lia.
Qed.

Lemma crowded_taken (n i : nat) :
  i < n -> is_Some (w_files (crowded n) !! candidate (probe_count 0 i)).
Proof.
  intros Hi. apply elem_of_dom. unfold crowded; simpl.
  rewrite dom_list_to_map_L. apply elem_of_list_to_set.
  rewrite <- list_fmap_compose.
  apply list_elem_of_fmap. exists i. split; [reflexivity|].
  apply elem_of_seq. lia.
Qed.

(** ** Two allocations in one directory *)

(** Every result of the recursive function is a result of the process. *)
Lemma makeUniqueFile_proc_steps (fuel : nat) : forall (count : Z) w r w',
  makeUniqueFile fuel count w = (Ok r, w') ->
  exists n : nat, proc_steps n (Probing count) w = (Ok (Returned r), w').
Proof.
  induction fuel as [|fuel IH]; intros count w r w' Hrun; [discriminate|].
  destruct (w_files w !! candidate count) as [x|] eqn:Hc.
  - rewrite makeUniqueFile_taken in Hrun by eauto.
    destruct (IH _ _ _ _ Hrun) as [n Hn].
    exists (S n). cbn [proc_steps proc_step].
    unfold bind at 1. unfold bind at 1.
    rewrite os_Stat_taken by (eauto using candidate_nonempty).
    exact Hn.
  - rewrite makeUniqueFile_free in Hrun by exact Hc.
    exists 2. cbn [proc_steps proc_step].
    unfold bind at 1. unfold bind at 1.
    rewrite os_Stat_free by exact Hc. cbn [os_IsNotExist ret].
    unfold bind, proc_step. unfold bind. rewrite Hrun. reflexivity.
Qed.

Lemma proc_steps_Returned (n : nat) r w :
  proc_steps n (Returned r) w = (Ok (Returned r), w).
Proof. induction n as [|n IH]; [reflexivity|]. cbn [proc_steps proc_step]. exact IH. Qed.

(** And every result of the process is the result of the recursive
    function, with as many calls as the process made steps. *)
Lemma proc_steps_makeUniqueFile (n : nat) : forall (count : Z) w r w',
  proc_steps n (Probing count) w = (Ok (Returned r), w') ->
  makeUniqueFile n count w = (Ok r, w').
Proof.
  induction n as [|n IH]; intros count w r w' Hrun; [discriminate|].
  cbn [proc_steps proc_step] in Hrun.
  destruct (w_files w !! candidate count) as [x|] eqn:Hc.
  - rewrite makeUniqueFile_taken by eauto.
    apply IH. unfold bind at 1 in Hrun. unfold bind at 1 in Hrun.
    rewrite os_Stat_taken in Hrun by (eauto using candidate_nonempty).
    exact Hrun.
  - rewrite makeUniqueFile_free by exact Hc.
    unfold bind at 1 in Hrun. unfold bind at 1 in Hrun.
    rewrite os_Stat_free in Hrun by exact Hc. cbn [os_IsNotExist ret] in Hrun.
    destruct n as [|n]; [discriminate|].
    cbn [proc_steps proc_step] in Hrun.
    unfold bind at 1 in Hrun. unfold bind at 1 in Hrun.
    destruct (os_Create (candidate count) w) as [[r0|fault|] w0] eqn:Hcreate.
    + cbn [ret] in Hrun. rewrite proc_steps_Returned in Hrun.
      injection Hrun as <- <-. reflexivity.
    + discriminate.
    + discriminate.
Qed.

Example makeUniqueFile_two_plans :
  fst (makeUniqueFile 3 0 two_plans)
  = Ok (Some (mkFile "kismatic-cluster-2.yaml"), None).
Proof. vm_compute. reflexivity. Qed.

Example makeUniqueFile_two_plans_short :
  fst (makeUniqueFile 2 0 two_plans) = OutOfFuel.
Proof. vm_compute. reflexivity. Qed.

(** C5.  In every directory where files can be created, [makeUniqueFile 0]
    returns the file of the first free name of the pattern: the base name
    [kismatic-cluster.yaml] when it is free ([plan_name 0]), and else
    [kismatic-cluster-<n>.yaml] for the least [n >= 1] whose name is free;
    the file is created empty and nothing else changes.  In particular,
    when the names of [0 .. N-1] exist and the name of [N] does not, the
    name returned is the one of [N]. *)
Theorem makeUniqueFile_first_available (w : World) (fuel : nat) :
  w_denied w = ∅ ->
  (Z.of_nat (size (w_files w)) < 2 ^ 63)%Z ->
  size (w_files w) < fuel ->
  exists n : nat,
    first_free w n /\
    makeUniqueFile fuel 0 w
    = (Ok (Some (mkFile (plan_name n)), None),
       set_files (<[plan_name n := ""]> (w_files w)) w) /\
    (forall N : nat,
        (forall k : nat, k < N -> is_Some (w_files w !! plan_name k)) ->
        w_files w !! plan_name N = None ->
        plan_name n = plan_name N).
Proof.
  intros Hdenied Hsize Hfuel.
  destruct (first_free_exists w) as (n & Hn & Hff).
  exists n. split; [exact Hff|]. split.
  - destruct Hff as [Hfree Htaken].
    destruct (makeUniqueFile_probe n 0 w) as [_ Hrun].
    + simpl. lia.
    + intros k Hk. apply Htaken. lia.
    + exact Hfree.
    + change 0%Z with (Z.of_nat 0). rewrite Hrun by lia. simpl.
      apply os_Create_allowed. rewrite Hdenied. apply not_elem_of_empty.
  - intros N Htaken Hfree. f_equal.
    apply (first_free_unique w); [exact Hff|]. split; assumption.
Qed.

Lemma makeUniqueFile_first_available_witness :
  exists n : nat,
    first_free two_plans n /\
    makeUniqueFile 3 0 two_plans
    = (Ok (Some (mkFile (plan_name n)), None),
       set_files (<[plan_name n := ""]> (w_files two_plans)) two_plans) /\
    (forall N : nat,
        (forall k : nat, k < N -> is_Some (w_files two_plans !! plan_name k)) ->
        w_files two_plans !! plan_name N = None ->
        plan_name n = plan_name N).
Proof.
  apply (makeUniqueFile_first_available two_plans 3).
  - reflexivity.
  - vm_compute. reflexivity.
  - vm_compute. lia.
Defined.

(** C4, the claim as stated fails: no number of probes is enough for every
    directory. *)
Lemma makeUniqueFile_no_fixed_bound :
  ~ exists bound : nat, forall w : World,
      exists r w', makeUniqueFile bound 0 w = (Ok r, w').
Proof.
  intros [bound Hbound].
  destruct (Hbound (crowded bound)) as (r & w' & Hrun).
  rewrite makeUniqueFile_exhausted in Hrun; [discriminate|].
  intros i Hi. apply crowded_taken, Hi.
Qed.

(** [os_Stat] is [stat_files], and leaves the world as it is. *)
Lemma os_Stat_stat_files path w : os_Stat path w = (Ok (stat_files w path), w).
Proof.
  unfold os_Stat, stat_files, bind, get.
  destruct (decide (path = "")) as [?|_]; [reflexivity|].
  destruct (w_files w !! path); reflexivity.
Qed.

Lemma makeUniqueFile_with_stat_files (fuel : nat) : forall (count : Z) w,
  makeUniqueFile fuel count w = makeUniqueFile_with (stat_files w) fuel count w.
Proof.
  induction fuel as [|fuel IH]; intros count w; [reflexivity|].
  cbn [makeUniqueFile makeUniqueFile_with].
  rewrite (bind_Ok _ _ _ _ _ (os_Stat_stat_files _ _)).
  destruct (stat_files w (candidate count)) as [info err].
  destruct (os_IsNotExist err); [reflexivity|apply IH].
Qed.

Lemma makeUniqueFile_with_skip stat fuel count w :
  os_IsNotExist (snd (stat (candidate count))) = false ->
  makeUniqueFile_with stat (S fuel) count w
  = makeUniqueFile_with stat fuel (int_wrap (count + 1)) w.
Proof.
  intros Hstat. cbn [makeUniqueFile_with].
  destruct (stat (candidate count)) as [info err]. cbn [snd] in Hstat.
  rewrite Hstat. reflexivity.
Qed.

Lemma makeUniqueFile_with_stop stat fuel count w :
  os_IsNotExist (snd (stat (candidate count))) = true ->
  makeUniqueFile_with stat (S fuel) count w = os_Create (candidate count) w.
Proof.
  intros Hstat. cbn [makeUniqueFile_with].
  destruct (stat (candidate count)) as [info err]. cbn [snd] in Hstat.
  rewrite Hstat. reflexivity.
Qed.

(** Probing from [count] when the stat of the names [count .. count + d - 1]
    does not say that they do not exist: [d] calls are not enough; when
    the stat of [count + d] says so, any more are, and the call that ends
    the recursion is the [os.Create] of that name. *)
Lemma makeUniqueFile_with_probe stat (d : nat) : forall (count : nat) (w : World),
  (Z.of_nat (count + d) < 2 ^ 63)%Z ->
  (forall k : nat, count <= k < count + d ->
     os_IsNotExist (snd (stat (plan_name k))) = false) ->
  makeUniqueFile_with stat d (Z.of_nat count) w = (OutOfFuel, w) /\
  (os_IsNotExist (snd (stat (plan_name (count + d)))) = true ->
   forall fuel : nat, d < fuel ->
     makeUniqueFile_with stat fuel (Z.of_nat count) w
     = os_Create (plan_name (count + d)) w).
Proof.
  induction d as [|d IH]; intros count w Hrange Hskip.
  - split; [reflexivity|].
    intros Hstop [|fuel] Hfuel; [lia|].
    rewrite Nat.add_0_r in *.
    rewrite makeUniqueFile_with_stop by (rewrite candidate_plan_name; exact Hstop).
    rewrite candidate_plan_name. reflexivity.
  - assert (Hstep : int_wrap (Z.of_nat count + 1) = Z.of_nat (S count)).
    { rewrite int_wrap_id; lia. }
    assert (Hc : os_IsNotExist (snd (stat (candidate (Z.of_nat count)))) = false).
    { rewrite candidate_plan_name. apply Hskip. lia. }
    destruct (IH (S count) w) as [IH1 IH2].
    + replace (S count + d) with (count + S d) by lia. exact Hrange.
    + intros k Hk. apply Hskip. lia.
    + split.
      * rewrite makeUniqueFile_with_skip, Hstep by exact Hc. exact IH1.
      * intros Hstop [|fuel] Hfuel; [lia|].
        rewrite makeUniqueFile_with_skip, Hstep by exact Hc.
        replace (count + S d) with (S count + d) in * by lia.
        apply IH2; [exact Hstop|lia].
Qed.

(** What the recursion returns is what [os.Create] returns, on a name whose
    stat said that it does not exist. *)
Lemma makeUniqueFile_with_outcome stat (fuel : nat) : forall (count : Z) w r w',
  makeUniqueFile_with stat fuel count w = (Ok r, w') ->
  exists c : Z,
    os_IsNotExist (snd (stat (candidate c))) = true /\
    os_Create (candidate c) w = (Ok r, w').
Proof.
  induction fuel as [|fuel IH]; intros count w r w' Hrun; [discriminate|].
  destruct (os_IsNotExist (snd (stat (candidate count)))) eqn:Hstat.
  - rewrite makeUniqueFile_with_stop in Hrun by exact Hstat.
    exists count. split; assumption.
  - rewrite makeUniqueFile_with_skip in Hrun by exact Hstat.
    apply IH in Hrun. exact Hrun.
Qed.

(** When no stat says that the name does not exist, no number of calls is
    enough. *)
Lemma makeUniqueFile_with_endless stat (fuel : nat) : forall (count : Z) w,
  (forall path, os_IsNotExist (snd (stat path)) = false) ->
  makeUniqueFile_with stat fuel count w = (OutOfFuel, w).
Proof.
  induction fuel as [|fuel IH]; intros count w Hstat; [reflexivity|].
  rewrite makeUniqueFile_with_skip by apply Hstat.
  apply IH, Hstat.
Qed.

(** C4, amended.  The probing is a recursion with no bound of its own and
    no error for running out of names.  Whatever [os.Stat] returns on the
    names, be it a file or an error: while it does not say that the name
    does not exist the recursion goes on, so when that holds of the first
    [n] names [n] calls are not enough; it ends at the first name whose
    stat says that it does not exist, with the [os.Create] of that name,
    and what it returns is what that [os.Create] returns, the only error
    there is; and when no stat says so, no number of calls is enough.
    [makeUniqueFile] is the case where [os.Stat] fails on absent files
    only. *)
Theorem makeUniqueFile_probes_until_not_exist
    (stat : string -> option FileInfo * option error) (w : World) (n : nat) :
  (Z.of_nat n < 2 ^ 63)%Z ->
  (forall k : nat, k < n -> os_IsNotExist (snd (stat (plan_name k))) = false) ->
  makeUniqueFile_with stat n 0 w = (OutOfFuel, w) /\
  (os_IsNotExist (snd (stat (plan_name n))) = true ->
   forall fuel : nat, n < fuel ->
     makeUniqueFile_with stat fuel 0 w = os_Create (plan_name n) w) /\
  (forall (fuel : nat) r w',
     makeUniqueFile_with stat fuel 0 w = (Ok r, w') ->
     exists c : Z,
       os_IsNotExist (snd (stat (candidate c))) = true /\
       os_Create (candidate c) w = (Ok r, w')) /\
  ((forall path, os_IsNotExist (snd (stat path)) = false) ->
   forall (fuel : nat) (count : Z),
     makeUniqueFile_with stat fuel count w = (OutOfFuel, w)) /\
  (forall (fuel : nat) (count : Z),
     makeUniqueFile fuel count w = makeUniqueFile_with (stat_files w) fuel count w).
Proof.
  intros Hn Hskip.
  destruct (makeUniqueFile_with_probe stat n 0 w) as [Hshort Hrun].
  { simpl. lia. }
  { intros k Hk. apply Hskip. lia. }
  simpl in Hshort, Hrun.
  split; [exact Hshort|]. split; [exact Hrun|]. split; [|split].
  - intros fuel r w'. apply makeUniqueFile_with_outcome.
  - intros Hstat fuel count. apply makeUniqueFile_with_endless, Hstat.
  - intros fuel count. apply makeUniqueFile_with_stat_files.
Qed.

Lemma makeUniqueFile_probes_until_not_exist_witness :
  makeUniqueFile_with (stat_broken two_plans) 3 0 two_plans = (OutOfFuel, two_plans) /\
  (os_IsNotExist (snd (stat_broken two_plans (plan_name 3))) = true ->
   forall fuel : nat, 3 < fuel ->
     makeUniqueFile_with (stat_broken two_plans) fuel 0 two_plans
     = os_Create (plan_name 3) two_plans) /\
  (forall (fuel : nat) r w',
     makeUniqueFile_with (stat_broken two_plans) fuel 0 two_plans = (Ok r, w') ->
     exists c : Z,
       os_IsNotExist (snd (stat_broken two_plans (candidate c))) = true /\
       os_Create (candidate c) two_plans = (Ok r, w')) /\
  ((forall path, os_IsNotExist (snd (stat_broken two_plans path)) = false) ->
   forall (fuel : nat) (count : Z),
     makeUniqueFile_with (stat_broken two_plans) fuel count two_plans
     = (OutOfFuel, two_plans)) /\
  (forall (fuel : nat) (count : Z),
     makeUniqueFile fuel count two_plans
     = makeUniqueFile_with (stat_files two_plans) fuel count two_plans).
Proof.
  apply (makeUniqueFile_probes_until_not_exist (stat_broken two_plans) two_plans 3).
  - vm_compute. reflexivity.
  - intros k Hk.
    destruct k as [|[|[|k]]]; [vm_compute; reflexivity ..|lia].
Defined.

(** A name whose stat fails on the disk is passed over, though no file
    bears it; and in a directory that cannot be searched the recursion
    does not end. *)
Example makeUniqueFile_broken_name :
  makeUniqueFile_with (stat_broken two_plans) 4 0 two_plans
  = (Ok (Some (mkFile "kismatic-cluster-3.yaml"), None),
     set_files (<["kismatic-cluster-3.yaml" := ""]> (w_files two_plans)) two_plans).
Proof. vm_compute. reflexivity. Qed.

Example makeUniqueFile_unsearchable_directory (fuel : nat) (count : Z) (w : World) :
  makeUniqueFile_with stat_unsearchable fuel count w = (OutOfFuel, w).
Proof. apply makeUniqueFile_with_endless. reflexivity. Qed.

(** C9, the claim as stated fails: when both processes stat the base name
    before either creates it, both create it and both return it. *)
Lemma concurrent_allocations_collide : ~ exclusive_allocation.
Proof.
  intros Hex.
  apply (Hex [true; false; true; false] empty_dir
             (set_files (<["kismatic-cluster.yaml" := ""]> ∅) empty_dir)
             (mkFile "kismatic-cluster.yaml") (mkFile "kismatic-cluster.yaml")).
  - vm_compute. reflexivity.
  - reflexivity.
Qed.

(** C9, amended.  The check ([os.Stat]) and the creation ([os.Create]) are
    two system calls; allocations that run one after the other in the same
    directory return different names, since the second finds the file of
    the first. *)
Theorem sequential_allocations_distinct
    (fuel1 fuel2 : nat) (w w1 w2 : World) (f1 f2 : File) :
  makeUniqueFile fuel1 0 w = (Ok (Some f1, None), w1) ->
  makeUniqueFile fuel2 0 w1 = (Ok (Some f2, None), w2) ->
  Name f1 ≠ Name f2.
Proof.
  intros Hfirst Hsecond Heq.
  apply makeUniqueFile_creates in Hfirst as [_ ->].
  apply makeUniqueFile_creates in Hsecond as [Hfree _].
  simpl in Hfree. rewrite <- Heq, lookup_insert_eq in Hfree. discriminate.
Qed.

Lemma sequential_allocations_distinct_witness :
  Name (mkFile "kismatic-cluster.yaml") ≠ Name (mkFile "kismatic-cluster-1.yaml").
Proof.
  apply (sequential_allocations_distinct 1 2 empty_dir
           (set_files (<["kismatic-cluster.yaml" := ""]> ∅) empty_dir)
           (set_files (<["kismatic-cluster-1.yaml" := ""]>
                         (<["kismatic-cluster.yaml" := ""]> ∅)) empty_dir)).
  - vm_compute. reflexivity.
  - vm_compute. reflexivity.
Defined.

(** ** Password generation *)

Section Password.

Variable rand_Intn : nat -> Z -> Z.
Variable garbler_NewPassword : PasswordStrengthRequirements -> nat -> string * option error.

Local Abbreviation generate_loop := (generate_loop rand_Intn garbler_NewPassword).
Local Abbreviation generateAlphaNumericPassword :=
  (generateAlphaNumericPassword rand_Intn garbler_NewPassword).
Local Abbreviation attempt := (attempt rand_Intn garbler_NewPassword).

Lemma generate_loop_S fuel attempts w :
  generate_loop (S fuel) attempts w
  = match attempt w 0 with
    | (_, Some _) => (Ok weakpassword, after_attempts w 1)
    | (pass, None) =>
        if MatchString pass then (Ok pass, after_attempts w 1)
        else if (attempts =? 50)%Z then (Ok weakpassword, after_attempts w 1)
        else generate_loop fuel (int_wrap (attempts + 1)) (after_attempts w 1)
    end.
Proof.
  cbn [generate_loop]. unfold bind, Intn, NewPassword, get, modify, ret.
  cbn. unfold attempt. cbn.
  destruct (garbler_NewPassword _ _) as [pass [e|]]; [reflexivity|].
  destruct (MatchString pass); [reflexivity|].
  destruct (attempts =? 50)%Z; reflexivity.
Qed.

Lemma after_attempts_0 w : after_attempts w 0 = w.
Proof. destruct w. reflexivity. Qed.

Lemma after_attempts_S w n :
  after_attempts (after_attempts w 1) n = after_attempts w (S n).
Proof.
  unfold after_attempts, set_garbler, set_rand. cbn.
  f_equal; lia.
Qed.

Lemma attempt_after w i : attempt (after_attempts w 1) i = attempt w (S i).
Proof.
  unfold attempt, after_attempts. cbn.
  replace (i + S (w_garbler w)) with (S (i + w_garbler w)) by lia.
  replace (i + (i + 0) + S (S (w_rand w))) with (S (i + S (i + 0) + w_rand w)) by lia.
  reflexivity.
Qed.

Lemma attempt_after_0 w k : attempt (after_attempts w k) 0 = attempt w k.
Proof.
  unfold attempt, after_attempts. cbn.
  replace (k + (k + 0) + w_rand w) with (2 * k + w_rand w) by lia.
  replace (0 + (k + w_garbler w)) with (k + w_garbler w) by lia.
  reflexivity.
Qed.

Lemma after_attempts_1 w k :
  after_attempts (after_attempts w k) 1 = after_attempts w (S k).
Proof.
  unfold after_attempts, set_garbler, set_rand. cbn.
  f_equal; lia.
Qed.

(** [k] refused passwords in a row are [k] turns of the loop. *)
Lemma generate_loop_rejected (k : nat) : forall (fuel : nat) (attempts : Z) (w : World),
  (0 <= attempts)%Z -> (attempts + Z.of_nat k <= 50)%Z ->
  (forall i : nat, i < k -> rejected (attempt w i)) ->
  generate_loop (k + fuel) attempts w
  = generate_loop fuel (attempts + Z.of_nat k) (after_attempts w k).
Proof.
  induction k as [|k IH]; intros fuel attempts w H0 H50 Hrej.
  - rewrite after_attempts_0, Z.add_0_r. reflexivity.
  - cbn [Nat.add]. rewrite generate_loop_S.
    destruct (Hrej 0) as [Herr Hmatch]; [lia|].
    destruct (attempt w 0) as [pass err]. simpl in Herr, Hmatch. subst err.
    rewrite Hmatch.
    replace (attempts =? 50)%Z with false by (symmetry; apply Z.eqb_neq; lia).
    rewrite int_wrap_id by lia.
    rewrite IH.
    + rewrite after_attempts_S. f_equal. lia.
    + lia.
    + lia.
    + intros i Hi. rewrite attempt_after. apply Hrej. lia.
Qed.

(** The loop returns, whatever the library answers: from [attempts <= 50]
    it needs no more than [51 - attempts] turns, and more fuel changes
    nothing. *)
Lemma generate_loop_fuel (m : nat) : forall (attempts : Z) (w : World),
  (0 <= attempts <= 50)%Z -> (50 - attempts <= Z.of_nat m)%Z ->
  exists (p : string) (n : nat),
    forall fuel : nat, m < fuel ->
      generate_loop fuel attempts w = (Ok p, after_attempts w n).
Proof.
  induction m as [|m IH]; intros attempts w Hrange Hm.
  - assert (attempts = 50%Z) as -> by lia.
    destruct (attempt w 0) as [pass [e|]] eqn:Ha.
    + exists weakpassword, 1. intros [|fuel] Hfuel; [lia|].
      rewrite generate_loop_S, Ha. reflexivity.
    + destruct (MatchString pass) eqn:Hmatch.
      * exists pass, 1. intros [|fuel] Hfuel; [lia|].
        rewrite generate_loop_S, Ha, Hmatch. reflexivity.
      * exists weakpassword, 1. intros [|fuel] Hfuel; [lia|].
        rewrite generate_loop_S, Ha, Hmatch. reflexivity.
  - destruct (attempt w 0) as [pass [e|]] eqn:Ha.
    + exists weakpassword, 1. intros [|fuel] Hfuel; [lia|].
      rewrite generate_loop_S, Ha. reflexivity.
    + destruct (MatchString pass) eqn:Hmatch.
      * exists pass, 1. intros [|fuel] Hfuel; [lia|].
        rewrite generate_loop_S, Ha, Hmatch. reflexivity.
      * destruct (attempts =? 50)%Z eqn:H50.
        -- exists weakpassword, 1. intros [|fuel] Hfuel; [lia|].
           rewrite generate_loop_S, Ha, Hmatch, H50. reflexivity.
        -- apply Z.eqb_neq in H50.
           destruct (IH (attempts + 1)%Z (after_attempts w 1)) as (p & n & Hrun);
             [lia|lia|].
           exists p, (S n). intros [|fuel] Hfuel; [lia|].
           rewrite generate_loop_S, Ha, Hmatch.
           replace (attempts =? 50)%Z with false by (symmetry; apply Z.eqb_neq; lia).
           rewrite int_wrap_id by lia.
           rewrite Hrun by lia. rewrite after_attempts_S. reflexivity.
Qed.

Lemma generateAlphaNumericPassword_returns (w : World) :
  exists (p : string) (n : nat),
    generateAlphaNumericPassword w = (Ok p, after_attempts w n).
Proof.
  destruct (generate_loop_fuel 50 0 w) as (p & n & Hrun); [lia|lia|].
  exists p, n. apply Hrun. lia.
Qed.

(** A password the loop returns is the sentinel, or one the library gave
    without error and the pattern accepted. *)
Lemma generate_loop_result (fuel : nat) : forall (attempts : Z) (w w' : World) (p : string),
  generate_loop fuel attempts w = (Ok p, w') ->
  p = weakpassword \/
  exists i : nat, attempt w i = (p, None) /\ MatchString p = true.
Proof.
  induction fuel as [|fuel IH]; intros attempts w w' p Hrun; [discriminate|].
  rewrite generate_loop_S in Hrun.
  destruct (attempt w 0) as [pass [e|]] eqn:Ha.
  - injection Hrun as <- _. left. reflexivity.
  - destruct (MatchString pass) eqn:Hmatch.
    + injection Hrun as <- _. right. exists 0. split; [exact Ha|exact Hmatch].
    + destruct (attempts =? 50)%Z.
      * injection Hrun as <- _. left. reflexivity.
      * apply IH in Hrun as [->|(i & Hi & Hm)]; [left; reflexivity|].
        right. exists (S i). rewrite <- attempt_after. split; assumption.
Qed.

(** C2, amended.  The loop retries after a password the pattern refuses,
    and only then.  After [k <= 50] refused passwords in a row: an error of
    the library at the next attempt returns the sentinel at once; a
    password the pattern accepts is returned; and when the attempt made
    with the counter at 50 is refused too, the sentinel is returned. *)
Theorem generate_retries_refused_passwords_only (w : World) (k : nat) :
  k <= 50 ->
  (forall i : nat, i < k -> rejected (attempt w i)) ->
  (forall pass e, attempt w k = (pass, Some e) ->
     generateAlphaNumericPassword w = (Ok weakpassword, after_attempts w (S k))) /\
  (forall pass, attempt w k = (pass, None) -> MatchString pass = true ->
     generateAlphaNumericPassword w = (Ok pass, after_attempts w (S k))) /\
  (k = 50 -> rejected (attempt w k) ->
     generateAlphaNumericPassword w = (Ok weakpassword, after_attempts w (S k))).
Proof.
  intros Hk Hrej.
  assert (Hrun : generateAlphaNumericPassword w
                 = generate_loop (51 - k) (Z.of_nat k) (after_attempts w k)).
  { unfold generateAlphaNumericPassword.
    replace 51 with (k + (51 - k)) at 1 by lia.
    rewrite generate_loop_rejected by (try lia; exact Hrej).
    reflexivity. }
  rewrite Hrun.
  replace (51 - k) with (S (50 - k)) by lia.
  rewrite generate_loop_S, attempt_after_0, after_attempts_1.
  split; [|split].
  - intros pass e ->. reflexivity.
  - intros pass -> ->. reflexivity.
  - intros -> [Herr Hmatch].
    destruct (attempt w 50) as [pass err]. simpl in Herr, Hmatch. subst err.
    rewrite Hmatch. reflexivity.
Qed.

(** The pattern of the source leaves out [0], so what it accepts is made
    of ASCII letters and digits. *)
Lemma MatchString_alphanumeric (s : string) :
  MatchString s = true -> alphanumeric s = true.
Proof.
  assert (Hclass : forall c, class_a_zA_Z1_9 c = true -> class_alnum c = true).
  { intros c. unfold class_a_zA_Z1_9, class_alnum.
    rewrite !orb_true_iff. intros [[H|H]|H]; auto.
    right. unfold in_range in *. apply andb_true_iff in H as [H1 H2].
    apply andb_true_iff. split; [|exact H2].
    apply Nat.leb_le. apply Nat.leb_le in H1.
    change (nat_of_ascii "1") with 49 in H1.
    change (nat_of_ascii "0") with 48. lia. }
  assert (Hall : forall t, all_chars class_a_zA_Z1_9 t = true ->
                           all_chars class_alnum t = true).
  { induction t as [|c t IH]; [reflexivity|]. simpl.
    rewrite !andb_true_iff. intros [Hc Ht]. split; [apply Hclass, Hc|apply IH, Ht]. }
  destruct s as [|c s]; [discriminate|]. apply Hall.
Qed.

(** C7.  The generator always returns; what it returns is made of ASCII
    letters and digits only, and a password that is not the fallback
    sentinel has 16 characters or more, the library keeping to the minimum
    total length of 16 it is asked for. *)
Theorem generated_password_alphanumeric_min_16 (w : World) :
  (forall reqs n pass,
      MinimumTotalLength reqs = 16%Z ->
      garbler_NewPassword reqs n = (pass, None) ->
      16 <= String.length pass) ->
  exists (p : string) (w' : World),
    generateAlphaNumericPassword w = (Ok p, w') /\
    alphanumeric p = true /\
    (p ≠ weakpassword -> 16 <= String.length p).
Proof.
  intros Hlib.
  destruct (generateAlphaNumericPassword_returns w) as (p & n & Hrun).
  exists p, (after_attempts w n). split; [exact Hrun|].
  apply generate_loop_result in Hrun as [->|(i & Hi & Hmatch)].
  - split; [reflexivity|]. intros Hne. contradiction.
  - split; [apply MatchString_alphanumeric, Hmatch|].
    intros _. unfold attempt in Hi. eapply Hlib; [|exact Hi]. reflexivity.
Qed.

End Password.

(** C2, the claim as stated fails: the first call of the library fails, the
    generator returns the sentinel after that one call, although the next
    call would have given a password the pattern accepts. *)
Lemma generation_error_returns_sentinel :
  generateAlphaNumericPassword rand_zero garbler_fails_once empty_dir
  = (Ok weakpassword, set_garbler 1 (set_rand 2 empty_dir)) /\
  garbler_fails_once (mkReqs 16 0 0 (-1)) 1 = ("Abcdefgh12345678", None) /\
  MatchString "Abcdefgh12345678" = true.
Proof. vm_compute. repeat split. Qed.

Lemma generate_retries_refused_passwords_only_witness :
  (forall pass e,
     attempt rand_zero garbler_punctuates_twice empty_dir 2 = (pass, Some e) ->
     generateAlphaNumericPassword rand_zero garbler_punctuates_twice empty_dir
     = (Ok weakpassword, after_attempts empty_dir 3)) /\
  (forall pass,
     attempt rand_zero garbler_punctuates_twice empty_dir 2 = (pass, None) ->
     MatchString pass = true ->
     generateAlphaNumericPassword rand_zero garbler_punctuates_twice empty_dir
     = (Ok pass, after_attempts empty_dir 3)) /\
  (2 = 50 -> rejected (attempt rand_zero garbler_punctuates_twice empty_dir 2) ->
     generateAlphaNumericPassword rand_zero garbler_punctuates_twice empty_dir
     = (Ok weakpassword, after_attempts empty_dir 3)).
Proof.
  apply (generate_retries_refused_passwords_only
           rand_zero garbler_punctuates_twice empty_dir 2).
  - lia.
  - intros i Hi. destruct i as [|[|i]].
    + split; reflexivity.
    + split; reflexivity.
    + lia.
Defined.

Example generate_after_two_refusals :
  fst (generateAlphaNumericPassword rand_zero garbler_punctuates_twice empty_dir)
  = Ok "Abcdefgh12345678".
Proof. vm_compute. reflexivity. Qed.

Lemma generated_password_alphanumeric_min_16_witness :
  exists (p : string) (w' : World),
    generateAlphaNumericPassword rand_zero garbler_good empty_dir = (Ok p, w') /\
    alphanumeric p = true /\
    (p ≠ weakpassword -> 16 <= String.length p).
Proof.
  apply (generated_password_alphanumeric_min_16 rand_zero garbler_good empty_dir).
  intros reqs n pass _ Hpass. injection Hpass as <-. vm_compute. lia.
Defined.

(** ** Runs that only add to the trace *)

Lemma extends_refl P w : extends P w w.
Proof.
  exists []. split; [constructor|].
  destruct w. unfold set_trace. cbn. rewrite app_nil_r. reflexivity.
Qed.

Lemma extends_trans P w1 w2 w3 :
  extends P w1 w2 -> extends P w2 w3 -> extends P w1 w3.
Proof.
  intros (t1 & H1 & ->) (t2 & H2 & ->).
  exists (t1 ++ t2). split; [apply Forall_app; split; assumption|].
  unfold set_trace. cbn. rewrite app_assoc. reflexivity.
Qed.

Lemma extends_weaken (P Q : Event -> Prop) w w' :
  (forall e, P e -> Q e) -> extends P w w' -> extends Q w w'.
Proof.
  intros HPQ (t & Ht & ->). exists t. split; [|reflexivity].
  eapply Forall_impl; [exact Ht|exact HPQ].
Qed.

Lemma extends_frame P w w' :
  extends P w w' ->
  w_env w' = w_env w /\ w_stdin w' = w_stdin w /\ w_execdir w' = w_execdir w /\
  w_files w' = w_files w /\ w_denied w' = w_denied w /\
  w_rand w' = w_rand w /\ w_garbler w' = w_garbler w.
Proof. intros (t & _ & ->). repeat split. Qed.

Lemma emits_weaken {A} (P Q : Event -> Prop) (m : M A) :
  (forall e, P e -> Q e) -> emits P m -> emits Q m.
Proof. intros HPQ Hm w r w' Hrun. eapply extends_weaken; [exact HPQ|]. eapply Hm, Hrun. Qed.

Lemma emits_ret {A} P (a : A) : emits P (ret a).
Proof. intros w r w' [= <- <-]. apply extends_refl. Qed.

Lemma emits_panic {A} P f : emits P (@panic A f).
Proof. intros w r w' [= <- <-]. apply extends_refl. Qed.

Lemma emits_get P : emits P get.
Proof. intros w r w' [= <- <-]. apply extends_refl. Qed.

Lemma emits_bind {A B} P (m : M A) (k : A -> M B) :
  emits P m -> (forall a, emits P (k a)) -> emits P (bind m k).
Proof.
  intros Hm Hk w r w' Hrun. unfold bind in Hrun.
  destruct (m w) as [[a|f|] w1] eqn:Hmw.
  - eapply extends_trans; [eapply Hm, Hmw|eapply Hk, Hrun].
  - injection Hrun as <- <-. eapply Hm, Hmw.
  - injection Hrun as <- <-. eapply Hm, Hmw.
Qed.

Lemma emits_emit (P : Event -> Prop) e : P e -> emits P (emit e).
Proof.
  intros He w r w' [= <- <-]. exists [e]. split; [|reflexivity].
  constructor; [exact He|constructor].
Qed.

Lemma emits_Println P operands : (forall l, P (EvPrint l)) -> emits P (Println operands).
Proof. intros HP. apply emits_emit, HP. Qed.

Lemma emits_os_Getenv P key : emits P (os_Getenv key).
Proof. apply emits_bind; [apply emits_get|intros w; apply emits_ret]. Qed.

Lemma emits_os_Stat P path : emits P (os_Stat path).
Proof.
  apply emits_bind; [apply emits_get|intros w].
  destruct (decide (path = "")); [apply emits_ret|].
  destruct (w_files w !! path); apply emits_ret.
Qed.

Lemma emits_index {A} P (l : list A) i : emits P (index l i).
Proof. unfold index. destruct (l !! i); [apply emits_ret|apply emits_panic]. Qed.

Lemma emits_printRole_nodes P nodes :
  (forall l, P (EvPrint l)) -> emits P (printRole_nodes nodes).
Proof.
  intros HP. induction nodes as [|node rest IH]; [apply emits_ret|].
  apply emits_bind; [apply emits_Println, HP|intros _; exact IH].
Qed.

Lemma emits_printRole P title nodes :
  (forall l, P (EvPrint l)) -> emits P (printRole title nodes).
Proof.
  intros HP. apply emits_bind; [apply emits_Println, HP|intros _].
  apply emits_printRole_nodes, HP.
Qed.

Lemma emits_printNodes P nodes :
  (forall l, P (EvPrint l)) -> emits P (printNodes nodes).
Proof.
  intros HP. unfold printNodes.
  repeat (apply emits_bind; [apply emits_printRole, HP|intros _]).
  apply emits_printRole, HP.
Qed.

Lemma emits_readToken P opts :
  (forall l, P (EvPrint l)) -> emits P (readToken opts).
Proof.
  intros HP. unfold readToken.
  apply emits_bind; [apply emits_os_Getenv|intros token].
  apply emits_bind; [apply emits_Println, HP|intros _].
  destruct (decide _); [|apply emits_ret].
  apply emits_bind; [apply emits_Println, HP|intros _].
  apply emits_bind; [apply emits_get|intros w]. apply emits_ret.
Qed.

Lemma is_print_setup e : is_print e -> is_setup e.
Proof. destruct e; simpl; auto. Qed.

(** ** The run of [makeInfra] *)

Section Infra.

Context {provisioner : Provisioner}.
Variable WaitForSSH : ProvisionedNodes -> string -> option error.
Variable scpFile : string -> string -> string -> string -> string -> string * option error.
Variable KET_INSTALL_DIR : string.
Variable filepath_Join : string -> string -> string.
Variable filepath_Base : string -> string.
Variable filepath_Abs : string -> string.
Variable template_Parse : option error.
Variable template_Execute : Plan -> string * option error.
Variable bufio_overflow : string -> string.
Variable rand_Intn : nat -> Z -> Z.
Variable garbler_NewPassword : PasswordStrengthRequirements -> nat -> string * option error.

Local Abbreviation validateKeyFile := (validateKeyFile filepath_Join).
Local Abbreviation assemblePlan := (assemblePlan rand_Intn garbler_NewPassword).
Local Abbreviation makePlan :=
  (makePlan scpFile KET_INSTALL_DIR filepath_Abs template_Parse template_Execute bufio_overflow).
Local Abbreviation makeInfra :=
  (makeInfra WaitForSSH scpFile KET_INSTALL_DIR filepath_Join filepath_Base
     filepath_Abs template_Parse template_Execute bufio_overflow rand_Intn garbler_NewPassword).
Local Abbreviation FileInfo_Name := (FileInfo_Name filepath_Base).
Local Abbreviation waitForSSH := (waitForSSH WaitForSSH).
Local Abbreviation scp := (scp scpFile).
Local Abbreviation default_key_path := (default_key_path filepath_Join).
Local Abbreviation key_path := (key_path filepath_Join).
Local Abbreviation key_present := (key_present filepath_Join).
Local Abbreviation key_absent := (key_absent filepath_Join).
Local Abbreviation run_opts := (run_opts filepath_Join filepath_Base).
Local Abbreviation staging_root := (staging_root KET_INSTALL_DIR).
Local Abbreviation generateAlphaNumericPassword_returns :=
  (generateAlphaNumericPassword_returns rand_Intn garbler_NewPassword).

Lemma emits_validateKeyFile P opts :
  (forall l, P (EvPrint l)) -> emits P (validateKeyFile opts).
Proof.
  intros HP. unfold validateKeyFile.
  apply emits_bind; [apply emits_os_Getenv|intros sshKeyPath].
  destruct (decide _); [|apply emits_ret].
  apply emits_bind; [apply emits_get|intros w].
  destruct (w_execdir w) as [dir err].
  apply emits_bind.
  { destruct err; [apply emits_Println, HP|apply emits_ret]. }
  intros _.
  apply emits_bind; [apply emits_Println, HP|intros _].
  apply emits_bind; [apply emits_os_Stat|intros [s staterr]].
  destruct (os_IsNotExist staterr); apply emits_ret.
Qed.

Lemma readToken_result opts w :
  fst (readToken opts w) = Ok (set_Token (token_of w) opts).
Proof.
  unfold readToken, token_of, bind, os_Getenv, Println, emit, modify, get, ret.
  cbn. destruct (decide (default "" (w_env w !! "DO_API_TOKEN") = "")); reflexivity.
Qed.

Lemma readToken_run opts w :
  exists w', readToken opts w = (Ok (set_Token (token_of w) opts), w') /\
             extends is_print w w'.
Proof.
  destruct (readToken opts w) as [r w'] eqn:Hrun.
  exists w'. split.
  - pose proof (readToken_result opts w) as Hres. rewrite Hrun in Hres.
    simpl in Hres. rewrite Hres. reflexivity.
  - eapply (emits_readToken is_print); [intros l; exact I|exact Hrun].
Qed.

(** [validateKeyFile] when the key file is there. *)
Lemma validateKeyFile_present_result opts w :
  is_Some (w_files w !! key_path w) -> key_path w ≠ "" ->
  fst (validateKeyFile opts w) = Ok (key_path w, key_path w +:+ ".pub", None).
Proof.
  intros [c Hc] Hne. unfold key_path in *. unfold validateKeyFile.
  unfold bind at 1. unfold os_Getenv at 1. unfold bind at 1. unfold get at 1, ret at 1.
  destruct (decide (default "" (w_env w !! "DO_SECRET_ACCESS_KEY") = "")) as [Hd|Hd];
    [|reflexivity].
  unfold default_key_path in *.
  unfold bind, get, Println, emit, modify, ret, os_Stat.
  destruct (w_execdir w) as [dir [e|]]; cbn in *;
    (destruct (decide _) as [?|_]; [done|]); rewrite Hc; reflexivity.
Qed.

(** [validateKeyFile] when the environment names no key and the default
    key file is not there: the descriptive error. *)
Lemma validateKeyFile_default_missing opts w :
  default "" (w_env w !! "DO_SECRET_ACCESS_KEY") = "" ->
  default_key_path w = "" \/ w_files w !! default_key_path w = None ->
  exists msg, fst (validateKeyFile opts w) = Ok ("", "", Some (ErrMsg msg)).
Proof.
  intros Henv Habsent. unfold validateKeyFile.
  unfold bind at 1. unfold os_Getenv at 1. unfold bind at 1. unfold get at 1, ret at 1.
  rewrite Henv. destruct (decide ("" = "")) as [_|?]; [|done].
  unfold default_key_path in *.
  unfold bind, get, Println, emit, modify, ret, os_Stat.
  destruct (w_execdir w) as [dir [e|]]; cbn in *;
    (destruct (decide _) as [?|Hne]; [eexists; reflexivity|]);
    (destruct Habsent as [?|Hc]; [done|]); rewrite Hc;
    eexists; reflexivity.
Qed.

(** [validateKeyFile] checks the default location only: a path taken from
    the environment is returned as it is. *)
Lemma validateKeyFile_env_result opts w :
  default "" (w_env w !! "DO_SECRET_ACCESS_KEY") ≠ "" ->
  validateKeyFile opts w = (Ok (key_path w, key_path w +:+ ".pub", None), w).
Proof.
  intros Henv. unfold validateKeyFile, key_path.
  unfold bind at 1. unfold os_Getenv at 1. unfold bind at 1. unfold get at 1, ret at 1.
  destruct (decide _) as [?|_]; [done|]. reflexivity.
Qed.

Lemma os_Stat_absent path w :
  path = "" \/ w_files w !! path = None ->
  os_Stat path w = (Ok (None, Some (ErrNotExist path)), w).
Proof.
  intros Habsent. unfold os_Stat, bind, get.
  destruct (decide (path = "")) as [?|Hne]; [reflexivity|].
  destruct Habsent as [?|Hc]; [done|]. rewrite Hc. reflexivity.
Qed.

Lemma extends_key_path P w w' : extends P w w' -> key_path w' = key_path w.
Proof. intros (t & _ & ->). reflexivity. Qed.

Lemma extends_token_of P w w' : extends P w w' -> token_of w' = token_of w.
Proof. intros (t & _ & ->). reflexivity. Qed.

Lemma validateKeyFile_run opts w :
  exists r w', validateKeyFile opts w = (r, w') /\ extends is_print w w'.
Proof.
  destruct (validateKeyFile opts w) as [r w'] eqn:Hrun. exists r, w'.
  split; [reflexivity|].
  eapply (emits_validateKeyFile is_print); [intros l; exact I|exact Hrun].
Qed.

Lemma FileInfo_Name_run info w :
  FileInfo_Name (Some info) w = (Ok (filepath_Base (InfoPath info)), w).
Proof. reflexivity. Qed.

Lemma Println_run operands w :
  Println operands w = (Ok tt, set_trace (w_trace w ++ [EvPrint operands]) w).
Proof. reflexivity. Qed.

Lemma provision_run opts counts w :
  provision opts counts w
  = (Ok (ProvisionNodes opts counts),
     set_trace (w_trace w ++ [EvProvision opts counts]) w).
Proof. reflexivity. Qed.

Lemma waitForSSH_run nodes key w :
  waitForSSH nodes key w
  = (Ok (WaitForSSH nodes key),
     set_trace (w_trace w ++ [EvWaitForSSH nodes key]) w).
Proof. reflexivity. Qed.

Lemma extends_emit (P : Event -> Prop) e w :
  P e -> extends P w (set_trace (w_trace w ++ [e]) w).
Proof.
  intros He. exists [e]. split; [|reflexivity].
  constructor; [exact He|constructor].
Qed.

Lemma extends_snoc (P : Event -> Prop) e w w' :
  extends P w w' -> P e -> extends P w (set_trace (w_trace w' ++ [e]) w').
Proof.
  intros Hext He. eapply extends_trans; [exact Hext|]. apply extends_emit, He.
Qed.

(** The run up to the plan, when the key file is there and provisioning
    and waiting succeed. *)
Lemma makeInfra_ready fuel opts w nodes :
  key_present w ->
  ProvisionNodes (run_opts opts w) (run_counts opts) = (nodes, None) ->
  WaitForSSH nodes (key_path w) = None ->
  exists w1,
    extends is_setup w w1 /\
    makeInfra fuel opts w
    = (if NoPlan opts then
         Println ["Your instances are ready." +:+ String LF ""] ;; printNodes nodes ;; ret None
       else
         let* pln := assemblePlan (run_opts opts w) nodes in
         makePlan fuel pln (run_opts opts w) nodes) w1.
Proof.
  intros [Hne Hkey] Hprov Hwait.
  unfold makeInfra.
  destruct (readToken_run opts w) as (wa & Ha & Hext_a).
  rewrite (bind_Ok _ _ _ _ _ Ha).
  destruct (validateKeyFile_run (set_Token (token_of w) opts) wa) as (r & wb & Hb & Hext_b).
  pose proof (validateKeyFile_present_result (set_Token (token_of w) opts) wa) as Hres.
  rewrite (extends_key_path _ _ _ Hext_a) in Hres.
  destruct (extends_frame _ _ _ Hext_a) as (_ & _ & _ & Hfa & _).
  rewrite Hfa in Hres. specialize (Hres Hkey Hne).
  rewrite Hb in Hres. simpl in Hres. subst r.
  rewrite (bind_Ok _ _ _ _ _ Hb). cbv beta iota.
  destruct (extends_frame _ _ _ Hext_b) as (_ & _ & _ & Hfb & _).
  assert (Hstat : os_Stat (key_path w) wb
                  = (Ok (Some (mkFileInfo (key_path w)), None), wb)).
  { apply os_Stat_taken; [|exact Hne]. rewrite Hfb, Hfa. exact Hkey. }
  rewrite (bind_Ok _ _ _ _ _ Hstat). cbv beta iota.
  rewrite (bind_Ok _ _ _ _ _ (FileInfo_Name_run _ _)).
  fold (run_opts opts w).
  rewrite (bind_Ok _ _ _ _ _ (Println_run _ _)).
  rewrite (bind_Ok _ _ _ _ _ (Println_run _ _)).
  rewrite (bind_Ok _ _ _ _ _ (provision_run _ _ _)).
  change (ProvisionNodes _ _)
    with (ProvisionNodes (run_opts opts w) (run_counts opts)).
  rewrite Hprov. cbv beta iota.
  rewrite (bind_Ok _ _ _ _ _ (Println_run _ _)).
  rewrite (bind_Ok _ _ _ _ _ (waitForSSH_run _ _ _)).
  change (WaitForSSH nodes _) with (WaitForSSH nodes (key_path w)).
  rewrite Hwait. cbv beta iota.
  eexists. split; [|reflexivity].
  eapply extends_trans; [eapply extends_weaken; [apply is_print_setup|exact Hext_a]|].
  eapply extends_trans; [eapply extends_weaken; [apply is_print_setup|exact Hext_b]|].
  repeat (apply extends_snoc; [|exact I]).
  apply extends_refl.
Qed.

Lemma emits_bind_post {A B} P (Q : A -> Prop) (m : M A) (k : A -> M B) :
  emits P m ->
  (forall w a w', m w = (Ok a, w') -> Q a) ->
  (forall a, Q a -> emits P (k a)) ->
  emits P (bind m k).
Proof.
  intros Hm HQ Hk w r w' Hrun. unfold bind in Hrun.
  destruct (m w) as [[a|f|] w1] eqn:Hmw.
  - eapply extends_trans; [eapply Hm, Hmw|].
    eapply (Hk a); [eapply HQ, Hmw|exact Hrun].
  - injection Hrun as <- <-. eapply Hm, Hmw.
  - injection Hrun as <- <-. eapply Hm, Hmw.
Qed.

Lemma bind_assoc {A B C} (m : M A) (f : A -> M B) (g : B -> M C) w :
  bind (bind m f) g w = bind m (fun a => bind (f a) g) w.
Proof. unfold bind. destruct (m w) as [[a|fault|] w']; reflexivity. Qed.

Lemma emits_FileInfo_Name P s : emits P (FileInfo_Name s).
Proof. destruct s; [apply emits_ret|apply emits_panic]. Qed.

Lemma emits_provision (P : Event -> Prop) opts counts :
  (forall o c, P (EvProvision o c)) -> emits P (provision opts counts).
Proof.
  intros HP. apply emits_bind; [apply emits_emit, HP|intros _; apply emits_ret].
Qed.

Lemma emits_waitForSSH (P : Event -> Prop) nodes key :
  (forall n k, P (EvWaitForSSH n k)) -> emits P (waitForSSH nodes key).
Proof.
  intros HP. apply emits_bind; [apply emits_emit, HP|intros _; apply emits_ret].
Qed.

(** With the no-plan option a run prints, provisions and waits, and does
    nothing else. *)
Lemma emits_makeInfra_noplan fuel opts :
  NoPlan opts = true -> emits is_setup (makeInfra fuel opts).
Proof.
  intros Hnoplan. unfold makeInfra.
  apply (emits_bind_post _ (fun o => NoPlan o = true)).
  { apply emits_readToken. intros l; exact I. }
  { intros w a w' Hrun.
    pose proof (readToken_result opts w) as Hres. rewrite Hrun in Hres.
    injection Hres as ->. exact Hnoplan. }
  intros o Ho.
  apply emits_bind; [apply emits_validateKeyFile; intros l; exact I|].
  intros [[sshPrivate sshPublic] errkey].
  apply emits_bind; [apply emits_os_Stat|intros [s staterr]].
  apply emits_bind; [apply emits_FileInfo_Name|intros name].
  apply emits_bind; [apply emits_Println; intros l; exact I|intros _].
  destruct errkey; [apply emits_ret|].
  apply emits_bind; [apply emits_Println; intros l; exact I|intros _].
  apply emits_bind; [apply emits_provision; intros ? ?; exact I|intros [nodes err]].
  destruct err; [apply emits_ret|].
  apply emits_bind; [apply emits_Println; intros l; exact I|intros _].
  apply emits_bind; [apply emits_waitForSSH; intros ? ?; exact I|intros err].
  destruct err; [apply emits_ret|].
  cbn [NoPlan set_SshPublic set_SshPrivate set_SshKeyName]. rewrite Ho.
  apply emits_bind; [apply emits_Println; intros l; exact I|intros _].
  apply emits_bind; [apply emits_printNodes; intros l; exact I|intros _].
  apply emits_ret.
Qed.

Lemma printRole_nodes_result nodes w : fst (printRole_nodes nodes w) = Ok tt.
Proof.
  revert w. induction nodes as [|node rest IH]; intros w; [reflexivity|].
  cbn [printRole_nodes]. rewrite (bind_Ok _ _ _ _ _ (Println_run _ _)). apply IH.
Qed.

Lemma printRole_result title nodes w : fst (printRole title nodes w) = Ok tt.
Proof.
  unfold printRole. rewrite (bind_Ok _ _ _ _ _ (Println_run _ _)).
  apply printRole_nodes_result.
Qed.

Lemma printRole_run title nodes w : exists w', printRole title nodes w = (Ok tt, w').
Proof.
  pose proof (printRole_result title nodes w) as Hres.
  destruct (printRole title nodes w) as [r w']. simpl in Hres. subst r. eauto.
Qed.

Lemma printNodes_run nodes w : exists w', printNodes nodes w = (Ok tt, w').
Proof.
  unfold printNodes.
  destruct (printRole_run "Etcd" (Etcd nodes) w) as [w1 H1].
  rewrite (bind_Ok _ _ _ _ _ H1).
  destruct (printRole_run "Master" (Master nodes) w1) as [w2 H2].
  rewrite (bind_Ok _ _ _ _ _ H2).
  destruct (printRole_run "Worker" (Worker nodes) w2) as [w3 H3].
  rewrite (bind_Ok _ _ _ _ _ H3).
  apply printRole_run.
Qed.

(** C10.  With the no-plan option set, a run of [makeInfra] leaves every
    file as it was and takes nothing from the random source or the
    password library, however it ends; and once the key file is there and
    provisioning and waiting have succeeded, it returns [nil], whatever
    nodes were provisioned. *)
Theorem makeInfra_noplan_writes_no_plan (fuel : nat) (opts : DOOpts) (w : World) :
  NoPlan opts = true ->
  (w_files (snd (makeInfra fuel opts w)) = w_files w /\
   w_garbler (snd (makeInfra fuel opts w)) = w_garbler w /\
   w_rand (snd (makeInfra fuel opts w)) = w_rand w) /\
  (forall nodes : ProvisionedNodes,
      key_present w ->
      ProvisionNodes (run_opts opts w) (run_counts opts) = (nodes, None) ->
      WaitForSSH nodes (key_path w) = None ->
      fst (makeInfra fuel opts w) = Ok None).
Proof.
  intros Hnoplan. split.
  - destruct (makeInfra fuel opts w) as [r w'] eqn:Hrun.
    apply (emits_makeInfra_noplan fuel opts Hnoplan) in Hrun.
    apply extends_frame in Hrun as (_ & _ & _ & Hf & _ & Hr & Hg).
    simpl. auto.
  - intros nodes Hkey Hprov Hwait.
    destruct (makeInfra_ready fuel opts w nodes Hkey Hprov Hwait) as (w1 & _ & ->).
    rewrite Hnoplan.
    rewrite (bind_Ok _ _ _ _ _ (Println_run _ _)).
    destruct (printNodes_run nodes (set_trace (w_trace w1 ++ [EvPrint ["Your instances are ready." +:+ String LF ""]]) w1))
      as [w2 H2].
    rewrite (bind_Ok _ _ _ _ _ H2). reflexivity.
Qed.

(** C3.  When the private key file is not there, [makeInfra] does not
    return the error of [validateKeyFile]: [os.Stat] gives it a nil
    [FileInfo], and [s.Name()] panics before [errkey] is looked at.  Nothing
    but printing has happened by then. *)
Theorem makeInfra_key_absent_panics (fuel : nat) (opts : DOOpts) (w : World) :
  key_absent w ->
  exists w', makeInfra fuel opts w = (Panic NilDereference, w') /\
             extends is_print w w'.
Proof.
  intros Habsent. unfold makeInfra.
  destruct (readToken_run opts w) as (wa & Ha & Hext_a).
  rewrite (bind_Ok _ _ _ _ _ Ha).
  destruct (validateKeyFile_run (set_Token (token_of w) opts) wa)
    as (r & wb & Hb & Hext_b).
  assert (Hext : extends is_print w wb) by (eapply extends_trans; eassumption).
  destruct Hext_a as (ta & Hta & ->).
  destruct (decide (default "" (w_env w !! "DO_SECRET_ACCESS_KEY") = "")) as [Henv|Henv].
  - assert (Hdefault : key_path w = default_key_path w).
    { unfold key_path. rewrite Henv. reflexivity. }
    unfold key_absent in Habsent. rewrite Hdefault in Habsent.
    destruct (validateKeyFile_default_missing (set_Token (token_of w) opts)
                (set_trace (w_trace w ++ ta) w) Henv Habsent) as [msg Hres].
    rewrite Hb in Hres. simpl in Hres. subst r.
    rewrite (bind_Ok _ _ _ _ _ Hb). cbv beta iota.
    rewrite (bind_Ok _ _ _ _ _ (os_Stat_absent "" wb (or_introl eq_refl))).
    cbv beta iota. exists wb. split; [reflexivity|exact Hext].
  - pose proof (validateKeyFile_env_result (set_Token (token_of w) opts)
                  (set_trace (w_trace w ++ ta) w) Henv) as Hres.
    rewrite Hb in Hres. injection Hres as -> ->.
    rewrite (bind_Ok _ _ _ _ _ Hb). cbv beta iota.
    change (key_path (set_trace (w_trace w ++ ta) w)) with (key_path w).
    rewrite (bind_Ok _ _ _ _ _
               (os_Stat_absent (key_path w) (set_trace (w_trace w ++ ta) w) Habsent)).
    cbv beta iota. eexists. split; [reflexivity|exact Hext].
Qed.

(** The plan of a topology with a master and a worker. *)
Lemma assemblePlan_ok opts nodes w worker workers master masters :
  Worker nodes = worker :: workers ->
  Master nodes = master :: masters ->
  exists (password : string) (n : nat),
    assemblePlan opts nodes w
    = (Ok {| AdminPassword := password;
             PlanEtcd := Etcd nodes;
             PlanMaster := Master nodes;
             PlanWorker := Worker nodes;
             Ingress := [worker];
             PlanStorage := if Storage opts then Worker nodes else [];
             MasterNodeFQDN := PublicIPv4 master;
             MasterNodeShortName := PublicIPv4 master;
             SSHKeyFile := "/ket/ssh/" +:+ SshKeyName opts;
             PlanSSHUser := NodeSSHUser master |},
       after_attempts w n).
Proof.
  intros Hw Hm. unfold assemblePlan.
  destruct (generateAlphaNumericPassword_returns w)
    as (password & n & Hgen).
  rewrite (bind_Ok _ _ _ _ _ Hgen).
  exists password, n. rewrite Hw, Hm. reflexivity.
Qed.

Lemma assemblePlan_empty_role opts nodes w :
  Worker nodes = [] \/ Master nodes = [] ->
  exists w', assemblePlan opts nodes w = (Panic (IndexOutOfRange 0 0), w').
Proof.
  intros Hempty. unfold assemblePlan.
  destruct (generateAlphaNumericPassword_returns w)
    as (password & n & Hgen).
  rewrite (bind_Ok _ _ _ _ _ Hgen).
  destruct (Worker nodes) as [|worker workers] eqn:Hw.
  - eexists. reflexivity.
  - destruct Hempty as [?|Hm]; [discriminate|].
    rewrite Hm. eexists. reflexivity.
Qed.

(** C1.  With a plan asked for, the key file there and provisioning and
    waiting succeeded, a topology without a worker or without a master
    makes [makeInfra] panic on [nodes.Worker[0]] or [nodes.Master[0]]: no
    error is returned. *)
Theorem makeInfra_empty_role_panics
    (fuel : nat) (opts : DOOpts) (w : World) (nodes : ProvisionedNodes) :
  NoPlan opts = false ->
  key_present w ->
  ProvisionNodes (run_opts opts w) (run_counts opts) = (nodes, None) ->
  WaitForSSH nodes (key_path w) = None ->
  Worker nodes = [] \/ Master nodes = [] ->
  fst (makeInfra fuel opts w) = Panic (IndexOutOfRange 0 0).
Proof.
  intros Hplan Hkey Hprov Hwait Hempty.
  destruct (makeInfra_ready fuel opts w nodes Hkey Hprov Hwait) as (w1 & _ & ->).
  rewrite Hplan.
  destruct (assemblePlan_empty_role (run_opts opts w) nodes w1 Hempty) as [w2 Hpanic].
  unfold bind. rewrite Hpanic. reflexivity.
Qed.

(** C8.  The storage nodes of the plan [makeInfra] assembles are all the
    workers when the storage option is set, and none otherwise: whenever a
    plan is assembled, and one is assembled for every topology with a
    master and a worker. *)
Theorem assemblePlan_storage (opts : DOOpts) (nodes : ProvisionedNodes) (w : World) :
  (forall pln w', assemblePlan opts nodes w = (Ok pln, w') ->
     PlanStorage pln = if Storage opts then Worker nodes else []) /\
  (Worker nodes ≠ [] -> Master nodes ≠ [] ->
     exists pln w', assemblePlan opts nodes w = (Ok pln, w') /\
       PlanStorage pln = if Storage opts then Worker nodes else []).
Proof.
  assert (Hok : Worker nodes ≠ [] -> Master nodes ≠ [] ->
     exists pln w', assemblePlan opts nodes w = (Ok pln, w') /\
       PlanStorage pln = if Storage opts then Worker nodes else []).
  { intros Hw Hm.
    destruct (Worker nodes) as [|worker workers] eqn:Ew; [contradiction|].
    destruct (Master nodes) as [|master masters] eqn:Em; [contradiction|].
    destruct (assemblePlan_ok opts nodes w _ _ _ _ Ew Em) as (password & n & Hrun).
    rewrite Ew, Em in Hrun.
    eexists _, _. split; [exact Hrun|reflexivity]. }
  split; [|exact Hok].
  intros pln w' Hrun.
  destruct (decide (Worker nodes = [])) as [Hw|Hw].
  { destruct (assemblePlan_empty_role opts nodes w (or_introl Hw)) as [w2 Hpanic].
    rewrite Hpanic in Hrun. discriminate. }
  destruct (decide (Master nodes = [])) as [Hm|Hm].
  { destruct (assemblePlan_empty_role opts nodes w (or_intror Hm)) as [w2 Hpanic].
    rewrite Hpanic in Hrun. discriminate. }
  destruct (Hok Hw Hm) as (pln' & w'' & Hrun' & Hstorage).
  rewrite Hrun in Hrun'. injection Hrun' as <- _. exact Hstorage.
Qed.

Lemma write_run f text w :
  write f text w = (Ok tt, set_files (<[Name f := text]> (w_files w)) w).
Proof. reflexivity. Qed.

Lemma scp_run src dst user host key w :
  scp src dst user host key w
  = (Ok (scpFile src dst user host key),
     set_trace (w_trace w ++ [EvScp src dst user host key]) w).
Proof. reflexivity. Qed.

(** C6.  When the template parses, the plan file is created and the plan is
    rendered into it, a failure of the copy to the bootstrap node changes
    nothing: [makePlan] returns [nil], and the directory is the one before
    the run with the new plan file holding the rendered text. *)
Theorem makePlan_staging_failure_not_fatal
    (fuel : nat) (pln : Plan) (opts : DOOpts) (nodes : ProvisionedNodes)
    (w w1 : World) (f : File) (text out : string) (boot : Node) (rest : list Node)
    (e : error) :
  template_Parse = None ->
  makeUniqueFile fuel 0 w = (Ok (Some f, None), w1) ->
  template_Execute pln = (text, None) ->
  BootstrapNode opts = true ->
  Boostrap nodes = boot :: rest ->
  scpFile (filepath_Abs (Name f)) (staging_root w +:+ "kismatic - cluster.yaml")
          (SSHUser opts) (PublicIPv4 boot) (SshPrivate opts) = (out, Some e) ->
  exists w',
    makePlan fuel pln opts nodes w = (Ok None, w') /\
    w_files w !! Name f = None /\
    w_files w' = <[Name f := text]> (w_files w).
Proof.
  intros Hparse Hfile Hexec Hboot Hnodes Hscp.
  destruct (makeUniqueFile_creates _ _ _ _ _ Hfile) as [Hfree Hw1].
  unfold makePlan. rewrite Hparse.
  rewrite (bind_Ok _ _ _ _ _ Hfile). cbv beta iota.
  rewrite Hexec.
  rewrite (bind_Ok _ _ _ _ _ (write_run _ _ _)).
  rewrite (bind_Ok _ _ _ _ _ (write_run _ _ _)).
  rewrite Hboot, Hnodes.
  rewrite bind_assoc. unfold index. cbn [lookup list_lookup].
  rewrite (bind_Ok _ _ _ _ _ (eq_refl : ret boot _ = (Ok boot, _))).
  rewrite bind_assoc.
  rewrite (bind_Ok _ _ _ _ _ (Println_run _ _)).
  rewrite bind_assoc.
  unfold os_Getenv at 1. rewrite bind_assoc.
  unfold bind at 1, get at 1. unfold bind at 1, ret at 1.
  rewrite bind_assoc.
  rewrite (bind_Ok _ _ _ _ _ (scp_run _ _ _ _ _ _)).
  subst w1. cbn [w_env set_trace set_files].
  fold (staging_root w). rewrite Hscp. cbv beta iota.
  rewrite (bind_Ok _ _ _ _ _ (eq_refl : ret tt _ = (Ok tt, _))).
  rewrite (bind_Ok _ _ _ _ _ (Println_run _ _)).
  rewrite (bind_Ok _ _ _ _ _ (Println_run _ _)).
  eexists. split; [reflexivity|]. split; [exact Hfree|].
  cbn. rewrite !insert_insert_eq. reflexivity.
Qed.

End Infra.

(** ** The theorems on the examples *)

Lemma makeInfra_empty_role_panics_witness :
  fst (demo_makeInfra demo_scp_refused 1 (demo_opts 0 false false) keyed_world)
  = Panic (IndexOutOfRange 0 0).
Proof.
  apply (@makeInfra_empty_role_panics demo_provisioner demo_WaitForSSH
           demo_scp_refused "/ket/" demo_Join demo_Base demo_Abs None
           demo_Execute demo_overflow rand_zero garbler_good
           1 (demo_opts 0 false false) keyed_world (demo_topology 0)).
  - reflexivity.
  - split; [vm_compute; discriminate|vm_compute; eexists; reflexivity].
  - vm_compute. reflexivity.
  - reflexivity.
  - left. reflexivity.
Defined.

Lemma makeInfra_key_absent_panics_witness :
  exists w',
    demo_makeInfra demo_scp_refused 1 (demo_opts 1 false false) keyless_world
    = (Panic NilDereference, w') /\
    extends is_print keyless_world w'.
Proof.
  apply (@makeInfra_key_absent_panics demo_provisioner demo_WaitForSSH
           demo_scp_refused "/ket/" demo_Join demo_Base demo_Abs None
           demo_Execute demo_overflow rand_zero garbler_good
           1 (demo_opts 1 false false) keyless_world).
  right. vm_compute. reflexivity.
Defined.

(** In the same world [validateKeyFile] returns its error, which
    [makeInfra] never gets to return. *)
Example validateKeyFile_keyless :
  exists msg,
    fst (validateKeyFile demo_Join (demo_opts 1 false false) keyless_world)
    = Ok ("", "", Some (ErrMsg msg)).
Proof. eexists. vm_compute. reflexivity. Qed.

Lemma assemblePlan_storage_witness :
  exists pln w',
    assemblePlan rand_zero garbler_good (demo_opts 2 false true)
      (demo_topology 2) keyed_world = (Ok pln, w') /\
    PlanStorage pln = Worker (demo_topology 2).
Proof.
  destruct (assemblePlan_storage rand_zero garbler_good (demo_opts 2 false true)
              (demo_topology 2) keyed_world) as [_ Hok].
  apply Hok; discriminate.
Defined.

Lemma makeInfra_noplan_writes_no_plan_witness :
  (w_files (snd (demo_makeInfra demo_scp_refused 1 (demo_opts 1 true false) keyed_world))
   = w_files keyed_world /\
   w_garbler (snd (demo_makeInfra demo_scp_refused 1 (demo_opts 1 true false) keyed_world))
   = w_garbler keyed_world /\
   w_rand (snd (demo_makeInfra demo_scp_refused 1 (demo_opts 1 true false) keyed_world))
   = w_rand keyed_world) /\
  (forall nodes : ProvisionedNodes,
      key_present demo_Join keyed_world ->
      @ProvisionNodes demo_provisioner
        (run_opts demo_Join demo_Base (demo_opts 1 true false) keyed_world)
        (run_counts (demo_opts 1 true false)) = (nodes, None) ->
      demo_WaitForSSH nodes (key_path demo_Join keyed_world) = None ->
      fst (demo_makeInfra demo_scp_refused 1 (demo_opts 1 true false) keyed_world)
      = Ok None).
Proof.
  apply (@makeInfra_noplan_writes_no_plan demo_provisioner demo_WaitForSSH
           demo_scp_refused "/ket/" demo_Join demo_Base demo_Abs None
           demo_Execute demo_overflow rand_zero garbler_good
           1 (demo_opts 1 true false) keyed_world).
  reflexivity.
Defined.

Lemma makePlan_staging_failure_not_fatal_witness :
  exists w',
    makePlan demo_scp_refused "/ket/" demo_Abs None demo_Execute demo_overflow 1
      (mkPlan "Kuxavopi7Rezumat4" [] [] [] [] [] "" "" "" "root")
      (demo_opts 1 false false) (demo_topology 1) keyed_world
    = (Ok None, w') /\
    w_files keyed_world !! Name (mkFile "kismatic-cluster.yaml") = None /\
    w_files w'
    = <[Name (mkFile "kismatic-cluster.yaml") := "admin_password: Kuxavopi7Rezumat4"]>
        (w_files keyed_world).
Proof.
  apply (makePlan_staging_failure_not_fatal demo_scp_refused "/ket/" demo_Abs
           None demo_Execute demo_overflow 1
           (mkPlan "Kuxavopi7Rezumat4" [] [] [] [] [] "" "" "" "root")
           (demo_opts 1 false false) (demo_topology 1) keyed_world
           (set_files (<["kismatic-cluster.yaml" := ""]> (w_files keyed_world)) keyed_world)
           (mkFile "kismatic-cluster.yaml") "admin_password: Kuxavopi7Rezumat4" ""
           (demo_node "bootstrap" 0) []
           (ErrMsg "ssh: connect to host: connection refused")).
  - reflexivity.
  - vm_compute. reflexivity.
  - reflexivity.
  - reflexivity.
  - vm_compute. reflexivity.
  - reflexivity.
Defined.

(** A whole run: one etcd, one master, two workers and the bootstrap node,
    storage off, the copy to the bootstrap node refused.  The run returns
    [nil], the plan file is written, the copy was tried. *)
Example makeInfra_run_two_workers :
  let run := demo_makeInfra demo_scp_refused 1 (demo_opts 2 false false) keyed_world in
  fst run = Ok None /\
  w_files (snd run) !! "kismatic-cluster.yaml" = Some "admin_password: Kuxavopi7Rezumat4" /\
  last (w_trace (snd run))
  = Some (EvPrint ["./kismatic install apply -f kismatic-cluster.yaml"]).
Proof. vm_compute. repeat split. Qed.

(** * Further properties *)

(** ** Names and existing files *)

(** X6.  Two counts of the recursion never give the same file name. *)
Theorem candidate_inj (a b : Z) :
  (0 <= a)%Z -> (0 <= b)%Z -> candidate a = candidate b -> a = b.
Proof.
  intros Ha Hb Heq.
  rewrite <- (Z2Nat.id a), <- (Z2Nat.id b) in Heq by assumption.
  rewrite !candidate_plan_name in Heq.
  apply plan_name_inj in Heq. lia.
Qed.

Lemma candidate_inj_witness : 3%Z = 3%Z.
Proof.
  apply (candidate_inj 3 3); [lia|lia|reflexivity].
Defined.

(** Every run of [makeUniqueFile] leaves the world as it was (out of fuel,
    or an error of [os.Create]) or adds one empty file under a name that
    was free. *)
Lemma makeUniqueFile_outcome (fuel : nat) : forall (count : Z) w r w',
  makeUniqueFile fuel count w = (r, w') ->
  (w' = w /\ (r = OutOfFuel \/ exists e, r = Ok (None, Some e))) \/
  exists k : Z,
    r = Ok (Some (mkFile (candidate k)), None) /\
    w_files w !! candidate k = None /\
    w' = set_files (<[candidate k := ""]> (w_files w)) w.
Proof.
  induction fuel as [|fuel IH]; intros count w r w' Hrun.
  - injection Hrun as <- <-. left. auto.
  - destruct (w_files w !! candidate count) as [x|] eqn:Hc.
    + rewrite makeUniqueFile_taken in Hrun by eauto. eapply IH, Hrun.
    + rewrite makeUniqueFile_free in Hrun by exact Hc.
      destruct (decide (candidate count ∈ w_denied w)) as [Hd|Hd].
      * rewrite os_Create_denied in Hrun by exact Hd.
        injection Hrun as <- <-. left. eauto.
      * rewrite os_Create_allowed in Hrun by exact Hd.
        injection Hrun as <- <-. right. exists count. auto.
Qed.

(** X5.  However [makeUniqueFile] ends, and from whatever count it starts, the
    files that were there keep their contents. *)
Theorem makeUniqueFile_keeps_existing_files
    (fuel : nat) (count : Z) (w : World) (path text : string) :
  w_files w !! path = Some text ->
  w_files (snd (makeUniqueFile fuel count w)) !! path = Some text.
Proof.
  intros Hfile.
  destruct (makeUniqueFile fuel count w) as [r w'] eqn:Hrun.
  apply makeUniqueFile_outcome in Hrun as [[-> _]|(k & _ & Hfree & ->)]; simpl.
  - exact Hfile.
  - rewrite lookup_insert_ne; [exact Hfile|].
    intros <-. rewrite Hfree in Hfile. discriminate.
Qed.

Lemma makeUniqueFile_keeps_existing_files_witness :
  w_files (snd (makeUniqueFile 3 0 two_plans)) !! "kismatic-cluster-1.yaml" = Some "b".
Proof.
  apply (makeUniqueFile_keeps_existing_files 3 0 two_plans "kismatic-cluster-1.yaml" "b").
  vm_compute. reflexivity.
Defined.

(** ** The token typed on standard input *)

Lemma append_cons (a : ascii) (s t : string) :
  String a s +:+ t = String a (s +:+ t).
Proof. reflexivity. Qed.

Lemma append_assoc (s t u : string) : (s +:+ t) +:+ u = s +:+ (t +:+ u).
Proof.
  induction s as [|a s IH]; [reflexivity|].
  rewrite !append_cons, IH. reflexivity.
Qed.

Lemma append_empty_r (s : string) : s +:+ "" = s.
Proof.
  induction s as [|a s IH]; [reflexivity|].
  rewrite append_cons, IH. reflexivity.
Qed.

Lemma rev_app_append (s acc : string) :
  String.rev_app s acc = String.rev s +:+ acc.
Proof.
  revert acc. induction s as [|a s IH]; intros acc; [reflexivity|].
  change (String.rev (String a s)) with (String.rev_app s (String a "")).
  cbn [String.rev_app].
  rewrite (IH (String a acc)), (IH (String a "")).
  rewrite append_assoc. reflexivity.
Qed.

Lemma rev_cons (a : ascii) (s : string) :
  String.rev (String a s) = String.rev s +:+ String a "".
Proof.
  change (String.rev (String a s)) with (String.rev_app s (String a "")).
  apply rev_app_append.
Qed.

Lemma rev_append (s t : string) :
  String.rev (s +:+ t) = String.rev t +:+ String.rev s.
Proof.
  induction s as [|a s IH].
  - change ("" +:+ t) with t. change (String.rev "") with "".
    rewrite append_empty_r. reflexivity.
  - rewrite append_cons, !rev_cons, IH, append_assoc. reflexivity.
Qed.

Lemma rev_involutive (s : string) : String.rev (String.rev s) = s.
Proof.
  induction s as [|a s IH]; [reflexivity|].
  rewrite rev_cons, rev_append, IH. reflexivity.
Qed.

Lemma all_chars_append (p : ascii -> bool) (s t : string) :
  all_chars p (s +:+ t) = all_chars p s && all_chars p t.
Proof.
  induction s as [|a s IH]; [reflexivity|].
  rewrite append_cons. cbn [all_chars].
  rewrite IH, andb_assoc. reflexivity.
Qed.

Lemma all_chars_rev (p : ascii -> bool) (s : string) :
  all_chars p (String.rev s) = all_chars p s.
Proof.
  induction s as [|a s IH]; [reflexivity|].
  rewrite rev_cons, all_chars_append, IH. cbn [all_chars].
  rewrite andb_true_r, andb_comm. reflexivity.
Qed.

Lemma trim_left_clean (c : ascii) (s : string) :
  all_chars (fun a => negb (Ascii.eqb a c)) s = true -> trim_left c s = s.
Proof.
  destruct s as [|a s]; [reflexivity|]. simpl.
  intros H. apply andb_true_iff in H as [Ha _].
  destruct (decide (a = c)) as [->|_]; [|reflexivity].
  rewrite Ascii.eqb_refl in Ha. discriminate.
Qed.

Lemma strings_Remove_clean (c : ascii) (s : string) :
  all_chars (fun a => negb (Ascii.eqb a c)) s = true -> strings_Remove s c = s.
Proof.
  induction s as [|a s IH]; [reflexivity|]. simpl.
  intros H. apply andb_true_iff in H as [Ha Hs].
  destruct (decide (a = c)) as [->|_].
  - rewrite Ascii.eqb_refl in Ha. discriminate.
  - rewrite IH by exact Hs. reflexivity.
Qed.

Lemma strings_Remove_append (c : ascii) (s t : string) :
  strings_Remove (s +:+ t) c = strings_Remove s c +:+ strings_Remove t c.
Proof.
  induction s as [|a s IH]; [reflexivity|].
  rewrite append_cons. cbn [strings_Remove].
  destruct (decide (a = c)); rewrite IH; reflexivity.
Qed.

Lemma no_line_end_split (s : string) :
  no_line_end s = true ->
  all_chars (fun a => negb (Ascii.eqb a LF)) s = true /\
  all_chars (fun a => negb (Ascii.eqb a CR)) s = true.
Proof.
  unfold no_line_end. induction s as [|a s IH]; simpl; [auto|].
  rewrite !andb_true_iff. intros [[H1 H2] Hs]. destruct (IH Hs). auto.
Qed.

(** Trimming the line feeds of a line: the text, with the carriage return
    of a Windows line end still there. *)
Lemma strings_Trim_line (t tail : string) :
  all_chars (fun a => negb (Ascii.eqb a LF)) t = true ->
  tail = "" \/ tail = String CR "" ->
  strings_Trim (t +:+ tail +:+ String LF "") LF = t +:+ tail.
Proof.
  intros Ht Htail. unfold strings_Trim.
  assert (Hclean : all_chars (fun a => negb (Ascii.eqb a LF)) (t +:+ tail) = true).
  { rewrite all_chars_append, Ht. destruct Htail as [->| ->]; reflexivity. }
  rewrite <- append_assoc.
  destruct (t +:+ tail) as [|a u] eqn:Hu; [reflexivity|].
  rewrite append_cons.
  assert (Ha : a ≠ LF).
  { cbn [all_chars] in Hclean. apply andb_true_iff in Hclean as [Ha _].
    intros ->. rewrite Ascii.eqb_refl in Ha. discriminate. }
  cbn [trim_left]. destruct (decide (a = LF)) as [?|_]; [done|].
  rewrite <- append_cons, rev_append.
  change (String.rev (String LF "")) with (String LF "").
  rewrite append_cons. change ("" +:+ String.rev (String a u)) with (String.rev (String a u)).
  cbn [trim_left]. destruct (decide (LF = LF)) as [_|?]; [|done].
  rewrite trim_left_clean by (rewrite all_chars_rev; exact Hclean).
  apply rev_involutive.
Qed.

(** Reading a line stops at its line feed: what follows is left unread. *)
Lemma ReadString_first_line (s rest : string) :
  all_chars (fun a => negb (Ascii.eqb a LF)) s = true ->
  ReadString (s +:+ String LF rest) LF = s +:+ String LF "".
Proof.
  induction s as [|a s IH]; intros Hs.
  - cbn [String.append ReadString]. change ("" +:+ String LF rest) with (String LF rest).
    cbn [ReadString]. destruct (decide (LF = LF)) as [_|?]; [reflexivity|done].
  - cbn [all_chars] in Hs. apply andb_true_iff in Hs as [Ha Hs].
    rewrite !append_cons. cbn [ReadString].
    destruct (decide (a = LF)) as [->|_].
    + rewrite Ascii.eqb_refl in Ha. discriminate.
    + rewrite IH by exact Hs. reflexivity.
Qed.

(** The token read from standard input is its first line without the line
    end; what follows the line is not read. *)
Lemma token_of_first_line (w : World) (t rest : string) :
  default "" (w_env w !! "DO_API_TOKEN") = "" ->
  no_line_end t = true ->
  w_stdin w = t +:+ String LF rest \/ w_stdin w = t +:+ String CR (String LF rest) ->
  token_of w = t.
Proof.
  intros Henv Ht Hline.
  unfold token_of. rewrite Henv.
  destruct (decide ("" = "")) as [_|?]; [|done].
  apply no_line_end_split in Ht as [Hlf Hcr].
  destruct Hline as [-> | ->].
  - rewrite (ReadString_first_line t rest Hlf).
    change (t +:+ String LF "") with (t +:+ "" +:+ String LF "").
    rewrite (strings_Trim_line t "" Hlf (or_introl eq_refl)).
    rewrite append_empty_r.
    apply strings_Remove_clean, Hcr.
  - replace (t +:+ String CR (String LF rest))
      with ((t +:+ String CR "") +:+ String LF rest)
      by (rewrite append_assoc; reflexivity).
    rewrite (ReadString_first_line (t +:+ String CR "") rest)
      by (rewrite all_chars_append, Hlf; reflexivity).
    rewrite append_assoc.
    rewrite (strings_Trim_line t (String CR "") Hlf (or_intror eq_refl)).
    rewrite strings_Remove_append, strings_Remove_clean by exact Hcr.
    cbn [strings_Remove]. destruct (decide (CR = CR)) as [_|?]; [|done].
    apply append_empty_r.
Qed.

(** X3.  With no token in the environment, the token is the line typed on
    standard input without its line end, be it a line feed or a carriage
    return and a line feed. *)
Theorem readToken_strips_line_end (opts : DOOpts) (w : World) (t : string) :
  default "" (w_env w !! "DO_API_TOKEN") = "" ->
  no_line_end t = true ->
  w_stdin w = t +:+ String LF "" \/ w_stdin w = t +:+ String CR (String LF "") ->
  fst (readToken opts w) = Ok (set_Token t opts).
Proof.
  intros Henv Ht Hline.
  rewrite readToken_result. unfold token_of. rewrite Henv.
  destruct (decide ("" = "")) as [_|?]; [|done].
  apply no_line_end_split in Ht as [Hlf Hcr].
  do 2 f_equal.
  destruct Hline as [-> | ->].
  - rewrite (ReadString_first_line t "" Hlf).
    change (t +:+ String LF "") with (t +:+ "" +:+ String LF "").
    rewrite (strings_Trim_line t "" Hlf (or_introl eq_refl)).
    rewrite append_empty_r.
    apply strings_Remove_clean, Hcr.
  - replace (t +:+ String CR (String LF ""))
      with ((t +:+ String CR "") +:+ String LF "")
      by (rewrite append_assoc; reflexivity).
    rewrite (ReadString_first_line (t +:+ String CR "") "")
      by (rewrite all_chars_append, Hlf; reflexivity).
    rewrite append_assoc.
    rewrite (strings_Trim_line t (String CR "") Hlf (or_intror eq_refl)).
    rewrite strings_Remove_append, strings_Remove_clean by exact Hcr.
    cbn [strings_Remove]. destruct (decide (CR = CR)) as [_|?]; [|done].
    apply append_empty_r.
Qed.

Lemma readToken_strips_line_end_witness :
  fst (readToken (demo_opts 1 false false)
         {| w_env := ∅; w_stdin := "dop_v1_token" +:+ String CR (String LF "");
            w_execdir := ("", None); w_files := ∅; w_denied := ∅;
            w_rand := 0; w_garbler := 0; w_trace := [] |})
  = Ok (set_Token "dop_v1_token" (demo_opts 1 false false)).
Proof.
  apply (readToken_strips_line_end (demo_opts 1 false false) _ "dop_v1_token").
  - reflexivity.
  - vm_compute. reflexivity.
  - right. reflexivity.
Defined.

(** ** Calls of the password library *)

Section PasswordCalls.

Variable rand_Intn : nat -> Z -> Z.
Variable garbler_NewPassword : PasswordStrengthRequirements -> nat -> string * option error.

Local Abbreviation generate_loop := (generate_loop rand_Intn garbler_NewPassword).
Local Abbreviation generateAlphaNumericPassword :=
  (generateAlphaNumericPassword rand_Intn garbler_NewPassword).
Local Abbreviation attempt := (attempt rand_Intn garbler_NewPassword).
Local Abbreviation generate_loop_S := (generate_loop_S rand_Intn garbler_NewPassword).
Local Abbreviation generate_loop_result :=
  (generate_loop_result rand_Intn garbler_NewPassword).

Lemma generate_loop_calls (m : nat) : forall (attempts : Z) (w : World),
  (0 <= attempts <= 50)%Z -> (50 - attempts <= Z.of_nat m)%Z ->
  exists (p : string) (n : nat),
    1 <= n <= S m /\
    forall fuel : nat, m < fuel ->
      generate_loop fuel attempts w = (Ok p, after_attempts w n).
Proof.
  induction m as [|m IH]; intros attempts w Hrange Hm.
  - assert (attempts = 50%Z) as -> by lia.
    destruct (attempt w 0) as [pass [e|]] eqn:Ha.
    + exists weakpassword, 1. split; [lia|]. intros [|fuel] Hfuel; [lia|].
      rewrite generate_loop_S, Ha. reflexivity.
    + destruct (MatchString pass) eqn:Hmatch.
      * exists pass, 1. split; [lia|]. intros [|fuel] Hfuel; [lia|].
        rewrite generate_loop_S, Ha, Hmatch. reflexivity.
      * exists weakpassword, 1. split; [lia|]. intros [|fuel] Hfuel; [lia|].
        rewrite generate_loop_S, Ha, Hmatch. reflexivity.
  - destruct (attempt w 0) as [pass [e|]] eqn:Ha.
    + exists weakpassword, 1. split; [lia|]. intros [|fuel] Hfuel; [lia|].
      rewrite generate_loop_S, Ha. reflexivity.
    + destruct (MatchString pass) eqn:Hmatch.
      * exists pass, 1. split; [lia|]. intros [|fuel] Hfuel; [lia|].
        rewrite generate_loop_S, Ha, Hmatch. reflexivity.
      * destruct (attempts =? 50)%Z eqn:H50.
        -- exists weakpassword, 1. split; [lia|]. intros [|fuel] Hfuel; [lia|].
           rewrite generate_loop_S, Ha, Hmatch, H50. reflexivity.
        -- apply Z.eqb_neq in H50.
           destruct (IH (attempts + 1)%Z (after_attempts w 1))
             as (p & n & Hn & Hrun); [lia|lia|].
           exists p, (S n). split; [lia|]. intros [|fuel] Hfuel; [lia|].
           rewrite generate_loop_S, Ha, Hmatch.
           replace (attempts =? 50)%Z with false by (symmetry; apply Z.eqb_neq; lia).
           rewrite int_wrap_id by lia.
           rewrite Hrun by lia. rewrite after_attempts_S. reflexivity.
Qed.

(** X7.  The generator asks the password library at least once and at most 51
    times, takes two draws from the random source for each call, and
    touches nothing else. *)
Theorem generateAlphaNumericPassword_calls (w : World) :
  exists (p : string) (n : nat) (w' : World),
    generateAlphaNumericPassword w = (Ok p, w') /\
    1 <= n <= 51 /\
    w_garbler w' = n + w_garbler w /\
    w_rand w' = 2 * n + w_rand w /\
    w_files w' = w_files w /\ w_trace w' = w_trace w.
Proof.
  destruct (generate_loop_calls 50 0 w) as (p & n & Hn & Hrun); [lia|lia|].
  exists p, n, (after_attempts w n). split; [apply Hrun; lia|].
  split; [exact Hn|]. repeat split.
Qed.

Lemma class_a_zA_Z1_9_not_zero (c : ascii) :
  class_a_zA_Z1_9 c = true -> negb (Ascii.eqb c "0") = true.
Proof.
  intros Hc. destruct (Ascii.eqb_spec c "0") as [->|_]; [|reflexivity].
  vm_compute in Hc. discriminate.
Qed.

Lemma MatchString_no_zero (s : string) : MatchString s = true -> no_zero s = true.
Proof.
  intros Hs.
  assert (Hall : all_chars class_a_zA_Z1_9 s = true).
  { destruct s; [discriminate|exact Hs]. }
  clear Hs. unfold no_zero.
  induction s as [|c s IH]; [reflexivity|].
  cbn [all_chars] in *. apply andb_true_iff in Hall as [Hc Hs].
  rewrite (class_a_zA_Z1_9_not_zero c Hc), (IH Hs). reflexivity.
Qed.

(** X8.  Whatever the library answers, the password returned passes the
    pattern of the source, sentinel included: it is never empty, and it
    never holds the digit [0], which the pattern leaves out. *)
Theorem generated_password_matches_pattern (w : World) :
  exists (p : string) (w' : World),
    generateAlphaNumericPassword w = (Ok p, w') /\
    MatchString p = true /\ p ≠ "" /\ no_zero p = true.
Proof.
  destruct (generate_loop_calls 50 0 w) as (p & n & _ & Hrun); [lia|lia|].
  specialize (Hrun 51 ltac:(lia)).
  exists p, (after_attempts w n). split; [exact Hrun|].
  assert (Hmatch : MatchString p = true).
  { apply generate_loop_result in Hrun as [->|(i & _ & Hm)]; [reflexivity|exact Hm]. }
  split; [exact Hmatch|]. split; [|apply MatchString_no_zero, Hmatch].
  intros ->. discriminate.
Qed.

End PasswordCalls.

(** A password with a [0] is refused like one with punctuation: the
    generator asks again. *)
Example generate_refuses_zero :
  generateAlphaNumericPassword rand_zero garbler_zero_first empty_dir
  = (Ok "Abcdefgh12345678", after_attempts empty_dir 2).
Proof. vm_compute. reflexivity. Qed.

(** ** Later states of the world *)

Lemma advances_refl w : advances w w.
Proof.
  unfold advances. repeat split; auto.
  exists []. rewrite app_nil_r. reflexivity.
Qed.

Lemma advances_trans w1 w2 w3 : advances w1 w2 -> advances w2 w3 -> advances w1 w3.
Proof.
  intros (He1 & Hs1 & Hx1 & Hd1 & [t1 Ht1] & Hf1 & Hn1 & Hr1 & Hg1)
         (He2 & Hs2 & Hx2 & Hd2 & [t2 Ht2] & Hf2 & Hn2 & Hr2 & Hg2).
  unfold advances. repeat split; try congruence; try lia.
  - exists (t1 ++ t2). rewrite Ht2, Ht1, app_assoc. reflexivity.
  - intros path text Hp. apply Hf2, Hf1, Hp.
  - intros path Hp. destruct (Hn2 path Hp) as [Hp2|Hnew]; [|right; exact Hnew].
    apply Hn1, Hp2.
Qed.

Lemma extends_advances P w w' : extends P w w' -> advances w w'.
Proof.
  intros (t & _ & ->). unfold advances. cbn. repeat split; auto.
  exists t. reflexivity.
Qed.

Lemma advances_counters w r g :
  w_rand w <= r -> w_garbler w <= g -> advances w (set_garbler g (set_rand r w)).
Proof.
  intros Hr Hg. unfold advances. cbn. repeat split; auto.
  exists []. rewrite app_nil_r. reflexivity.
Qed.

(** A file created, and written, under a name that was free. *)
Lemma advances_new_file w k text :
  w_files w !! candidate k = None ->
  advances w (set_files (<[candidate k := text]> (w_files w)) w).
Proof.
  intros Hfree. unfold advances. cbn. repeat split; auto.
  - exists []. rewrite app_nil_r. reflexivity.
  - intros path c Hp. rewrite lookup_insert_ne; [exact Hp|].
    intros <-. rewrite Hfree in Hp. discriminate.
  - intros path Hp. destruct (decide (candidate k = path)) as [<-|Hne].
    + right. exists k. reflexivity.
    + left. rewrite lookup_insert_ne in Hp by exact Hne. exact Hp.
Qed.

Lemma steps_snd {A} (m : M A) w : steps m -> advances w (snd (m w)).
Proof. intros Hm. destruct (m w) as [r w'] eqn:Hrun. eapply Hm, Hrun. Qed.

Lemma steps_ret {A} (a : A) : steps (ret a).
Proof. intros w r w' [= <- <-]. apply advances_refl. Qed.

Lemma steps_bind {A B} (m : M A) (k : A -> M B) :
  steps m -> (forall a, steps (k a)) -> steps (bind m k).
Proof.
  intros Hm Hk w r w' Hrun. unfold bind in Hrun.
  destruct (m w) as [[a|f|] w1] eqn:Hmw.
  - eapply advances_trans; [eapply Hm, Hmw|eapply Hk, Hrun].
  - injection Hrun as <- <-. eapply Hm, Hmw.
  - injection Hrun as <- <-. eapply Hm, Hmw.
Qed.

Lemma steps_emits {A} P (m : M A) : emits P m -> steps m.
Proof. intros Hm w r w' Hrun. eapply extends_advances, Hm, Hrun. Qed.

Lemma steps_makeUniqueFile fuel count : steps (makeUniqueFile fuel count).
Proof.
  intros w r w' Hrun.
  apply makeUniqueFile_outcome in Hrun as [[-> _]|(k & _ & Hfree & ->)].
  - apply advances_refl.
  - apply advances_new_file, Hfree.
Qed.

(** ** Printing the nodes *)

Lemma printRole_nodes_trace nodes : forall w,
  printRole_nodes nodes w
  = (Ok tt, set_trace (w_trace w ++ (node_line <$> nodes)) w).
Proof.
  induction nodes as [|node rest IH]; intros w.
  - cbn [printRole_nodes fmap list_fmap]. unfold ret.
    rewrite app_nil_r. destruct w. reflexivity.
  - cbn [printRole_nodes].
    rewrite (bind_Ok _ _ _ _ _ (eq_refl : Println _ w = (Ok tt, _))).
    rewrite IH. cbn [fmap list_fmap]. unfold set_trace. cbn.
    rewrite <- app_assoc. reflexivity.
Qed.

Lemma printRole_trace title nodes w :
  printRole title nodes w
  = (Ok tt, set_trace (w_trace w ++ role_lines title nodes) w).
Proof.
  unfold printRole.
  rewrite (bind_Ok _ _ _ _ _ (eq_refl : Println _ w = (Ok tt, _))).
  rewrite printRole_nodes_trace. unfold role_lines, set_trace. cbn.
  rewrite <- app_assoc. reflexivity.
Qed.

(** X19.  [printNodes] never fails and prints, in this order, the etcd, master,
    worker and bootstrap nodes: a title for each role, also when it has no
    node, and a line for each node. *)
Theorem printNodes_trace (nodes : ProvisionedNodes) (w : World) :
  printNodes nodes w
  = (Ok tt,
     set_trace (w_trace w
                ++ role_lines "Etcd" (Etcd nodes)
                ++ role_lines "Master" (Master nodes)
                ++ role_lines "Worker" (Worker nodes)
                ++ role_lines "Bootstrap" (Boostrap nodes)) w) /\
  length (role_lines "Etcd" (Etcd nodes) ++ role_lines "Master" (Master nodes)
          ++ role_lines "Worker" (Worker nodes)
          ++ role_lines "Bootstrap" (Boostrap nodes))
  = 4 + length (Etcd nodes) + length (Master nodes)
    + length (Worker nodes) + length (Boostrap nodes).
Proof.
  split.
  - unfold printNodes.
    rewrite (bind_Ok _ _ _ _ _ (printRole_trace _ _ _)).
    rewrite (bind_Ok _ _ _ _ _ (printRole_trace _ _ _)).
    rewrite (bind_Ok _ _ _ _ _ (printRole_trace _ _ _)).
    rewrite printRole_trace. unfold set_trace. cbn.
    rewrite <- !app_assoc. reflexivity.
  - unfold role_lines. rewrite !length_app. cbn [length].
    rewrite !length_fmap. lia.
Qed.

(** ** Runs of [makePlan] *)

Section PlanRuns.

Context {provisioner : Provisioner}.
Variable WaitForSSH : ProvisionedNodes -> string -> option error.
Variable scpFile : string -> string -> string -> string -> string -> string * option error.
Variable KET_INSTALL_DIR : string.
Variable filepath_Join : string -> string -> string.
Variable filepath_Base : string -> string.
Variable filepath_Abs : string -> string.
Variable template_Parse : option error.
Variable template_Execute : Plan -> string * option error.
Variable bufio_overflow : string -> string.
Variable rand_Intn : nat -> Z -> Z.
Variable garbler_NewPassword : PasswordStrengthRequirements -> nat -> string * option error.

Local Abbreviation makePlan :=
  (makePlan scpFile KET_INSTALL_DIR filepath_Abs template_Parse template_Execute bufio_overflow).
Local Abbreviation scp := (scp scpFile).
Local Abbreviation staging_root := (staging_root KET_INSTALL_DIR).
Local Abbreviation staging_events :=
  (staging_events scpFile KET_INSTALL_DIR filepath_Abs).
Local Abbreviation scp_run := (scp_run scpFile).
Local Abbreviation bufio_passed := (bufio_passed bufio_overflow).

(** The run of [makePlan] once the template has parsed, the file is
    created and the plan rendered. *)
Lemma makePlan_run fuel pln opts nodes w w1 f text :
  template_Parse = None ->
  makeUniqueFile fuel 0 w = (Ok (Some f, None), w1) ->
  template_Execute pln = (text, None) ->
  makePlan fuel pln opts nodes w
  = let written := set_files (<[Name f := text]> (w_files w)) w in
    if BootstrapNode opts then
      match Boostrap nodes with
      | [] => (Panic (IndexOutOfRange 0 0), written)
      | boot :: _ =>
          (Ok None,
           set_trace (w_trace w ++ staging_events f opts boot w ++ install_hint f)
                     written)
      end
    else (Ok None, set_trace (w_trace w ++ install_hint f) written).
Proof.
  intros Hparse Hfile Hexec.
  destruct (makeUniqueFile_creates _ _ _ _ _ Hfile) as [Hfree Hw1].
  unfold makePlan. rewrite Hparse.
  rewrite (bind_Ok _ _ _ _ _ Hfile). cbv beta iota.
  rewrite Hexec.
  rewrite (bind_Ok _ _ _ _ _ (write_run _ _ _)).
  rewrite (bind_Ok _ _ _ _ _ (write_run _ _ _)).
  subst w1. cbn [w_files set_files]. rewrite !insert_insert_eq.
  cbv zeta.
  destruct (BootstrapNode opts).
  - rewrite bind_assoc. unfold index. cbn [lookup list_lookup].
    destruct (Boostrap nodes) as [|boot rest]; [reflexivity|].
    cbn [lookup list_lookup].
    rewrite (bind_Ok _ _ _ _ _ (eq_refl : ret boot _ = (Ok boot, _))).
    rewrite bind_assoc.
    rewrite (bind_Ok _ _ _ _ _ (Println_run _ _)).
    rewrite bind_assoc.
    unfold os_Getenv at 1. rewrite bind_assoc.
    unfold bind at 1, get at 1. unfold bind at 1, ret at 1.
    rewrite bind_assoc.
    rewrite (bind_Ok _ _ _ _ _ (scp_run _ _ _ _ _ _)).
    cbn [w_env set_trace set_files].
    fold (staging_root w). unfold staging_events.
    fold (staging_root w).
    destruct (scpFile _ _ _ _ _) as [out [e|]]; cbv beta iota.
    + rewrite (bind_Ok _ _ _ _ _ (eq_refl : ret tt _ = (Ok tt, _))).
      rewrite (bind_Ok _ _ _ _ _ (Println_run _ _)).
      rewrite (bind_Ok _ _ _ _ _ (Println_run _ _)).
      unfold ret, set_trace, install_hint. cbn.
      rewrite <- !app_assoc. reflexivity.
    + rewrite (bind_Ok _ _ _ _ _ (Println_run _ _)).
      rewrite (bind_Ok _ _ _ _ _ (Println_run _ _)).
      rewrite (bind_Ok _ _ _ _ _ (Println_run _ _)).
      unfold ret, set_trace, install_hint. cbn.
      rewrite <- !app_assoc. reflexivity.
  - rewrite (bind_Ok _ _ _ _ _ (eq_refl : ret tt _ = (Ok tt, _))).
    rewrite (bind_Ok _ _ _ _ _ (Println_run _ _)).
    rewrite (bind_Ok _ _ _ _ _ (Println_run _ _)).
    unfold ret, set_trace, install_hint. cbn.
    rewrite <- !app_assoc. reflexivity.
Qed.

(** X9.  When the first free name cannot be created, [makePlan] returns the
    error of [os.Create] on that name; no later name is tried, nothing is
    rendered, and the world stays as it was. *)
Theorem makePlan_create_denied
    (fuel : nat) (pln : Plan) (opts : DOOpts) (nodes : ProvisionedNodes)
    (w : World) (n : nat) :
  template_Parse = None ->
  first_free w n ->
  plan_name n ∈ w_denied w ->
  n < fuel -> (Z.of_nat n < 2 ^ 63)%Z ->
  makePlan fuel pln opts nodes w = (Ok (Some (ErrPermission (plan_name n))), w).
Proof.
  intros Hparse [Hfree Htaken] Hdenied Hfuel Hn.
  destruct (makeUniqueFile_probe n 0 w) as [_ Hrun].
  { simpl. lia. }
  { intros k Hk. apply Htaken. lia. }
  { exact Hfree. }
  specialize (Hrun fuel Hfuel). simpl in Hrun.
  rewrite os_Create_denied in Hrun by exact Hdenied.
  unfold makePlan. rewrite Hparse.
  rewrite (bind_Ok _ _ _ _ _ Hrun). reflexivity.
Qed.

Lemma makePlan_render_error_run fuel pln opts nodes w w1 f text e :
  template_Parse = None ->
  makeUniqueFile fuel 0 w = (Ok (Some f, None), w1) ->
  template_Execute pln = (text, Some e) ->
  makePlan fuel pln opts nodes w
  = (Ok (Some e), set_files (<[Name f := bufio_passed text]> (w_files w)) w).
Proof.
  intros Hparse Hfile Hexec.
  destruct (makeUniqueFile_creates _ _ _ _ _ Hfile) as [Hfree Hw1].
  unfold makePlan. rewrite Hparse.
  rewrite (bind_Ok _ _ _ _ _ Hfile). cbv beta iota.
  rewrite Hexec.
  rewrite (bind_Ok _ _ _ _ _ (write_run _ _ _)).
  subst w1. cbn [w_files set_files]. rewrite insert_insert_eq. reflexivity.
Qed.

(** X10.  When the template fails on the plan, [makePlan] returns that error
    and nothing is copied or printed.  The writer is not flushed, so the
    file it had created stays behind with only what the writer had passed
    on: a name that was free now names a file, and of a text that fits
    the buffer of 4096 bytes nothing is in it. *)
Theorem makePlan_render_error_leaves_file
    (fuel : nat) (pln : Plan) (opts : DOOpts) (nodes : ProvisionedNodes)
    (w w1 : World) (f : File) (text : string) (e : error) :
  template_Parse = None ->
  makeUniqueFile fuel 0 w = (Ok (Some f, None), w1) ->
  template_Execute pln = (text, Some e) ->
  w_files w !! Name f = None /\
  makePlan fuel pln opts nodes w
  = (Ok (Some e), set_files (<[Name f := bufio_passed text]> (w_files w)) w) /\
  (String.length text <= 4096 ->
   makePlan fuel pln opts nodes w
   = (Ok (Some e), set_files (<[Name f := ""]> (w_files w)) w)).
Proof.
  intros Hparse Hfile Hexec.
  pose proof (makePlan_render_error_run _ pln opts nodes _ _ _ _ _
                Hparse Hfile Hexec) as Hrun.
  split; [exact (proj1 (makeUniqueFile_creates _ _ _ _ _ Hfile))|].
  split; [exact Hrun|].
  intros Hfits. rewrite Hrun. unfold bufio_passed.
  destruct (decide (String.length text <= 4096)) as [_|?]; [reflexivity|done].
Qed.

(** X11.  Without the bootstrap option the plan is written and nothing is
    copied: the run only prints how to install the cluster. *)
Theorem makePlan_without_bootstrap
    (fuel : nat) (pln : Plan) (opts : DOOpts) (nodes : ProvisionedNodes)
    (w w1 : World) (f : File) (text : string) :
  template_Parse = None ->
  makeUniqueFile fuel 0 w = (Ok (Some f, None), w1) ->
  template_Execute pln = (text, None) ->
  BootstrapNode opts = false ->
  makePlan fuel pln opts nodes w
  = (Ok None,
     set_trace (w_trace w ++ install_hint f)
       (set_files (<[Name f := text]> (w_files w)) w)).
Proof.
  intros Hparse Hfile Hexec Hboot.
  rewrite (makePlan_run _ _ _ _ _ _ _ _ Hparse Hfile Hexec).
  cbv zeta. rewrite Hboot. reflexivity.
Qed.

(** X12.  With the bootstrap option the plan file is copied to the first
    bootstrap node, as the user of the options and with the key of the
    run, to the install directory of the environment (or the default one)
    followed by [kismatic - cluster.yaml]; the result is [nil] whatever
    the copy returns, and an error of the copy prints nothing. *)
Theorem makePlan_staging
    (fuel : nat) (pln : Plan) (opts : DOOpts) (nodes : ProvisionedNodes)
    (w w1 : World) (f : File) (text : string) (boot : Node) (rest : list Node) :
  template_Parse = None ->
  makeUniqueFile fuel 0 w = (Ok (Some f, None), w1) ->
  template_Execute pln = (text, None) ->
  BootstrapNode opts = true ->
  Boostrap nodes = boot :: rest ->
  makePlan fuel pln opts nodes w
  = (Ok None,
     set_trace (w_trace w ++ staging_events f opts boot w ++ install_hint f)
       (set_files (<[Name f := text]> (w_files w)) w)) /\
  staging_events f opts boot w !! 1
  = Some (EvScp (filepath_Abs (Name f))
            (staging_root w +:+ "kismatic - cluster.yaml")
            (SSHUser opts) (PublicIPv4 boot) (SshPrivate opts)) /\
  (forall out e,
      scpFile (filepath_Abs (Name f))
        (staging_root w +:+ "kismatic - cluster.yaml")
        (SSHUser opts) (PublicIPv4 boot) (SshPrivate opts) = (out, Some e) ->
      length (staging_events f opts boot w) = 2).
Proof.
  intros Hparse Hfile Hexec Hboot Hnodes.
  split; [|split].
  - rewrite (makePlan_run _ _ _ _ _ _ _ _ Hparse Hfile Hexec).
    cbv zeta. rewrite Hboot, Hnodes. reflexivity.
  - reflexivity.
  - intros out e Hscp. unfold staging_events. rewrite Hscp. reflexivity.
Qed.

(** X13.  With the bootstrap option and no bootstrap node in the topology,
    [makePlan] panics on [nodes.Boostrap[0]], after the plan file has been
    written. *)
Theorem makePlan_bootstrap_missing_panics
    (fuel : nat) (pln : Plan) (opts : DOOpts) (nodes : ProvisionedNodes)
    (w w1 : World) (f : File) (text : string) :
  template_Parse = None ->
  makeUniqueFile fuel 0 w = (Ok (Some f, None), w1) ->
  template_Execute pln = (text, None) ->
  BootstrapNode opts = true ->
  Boostrap nodes = [] ->
  makePlan fuel pln opts nodes w
  = (Panic (IndexOutOfRange 0 0),
     set_files (<[Name f := text]> (w_files w)) w).
Proof.
  intros Hparse Hfile Hexec Hboot Hnodes.
  rewrite (makePlan_run _ _ _ _ _ _ _ _ Hparse Hfile Hexec).
  cbv zeta. rewrite Hboot, Hnodes. reflexivity.
Qed.

Lemma advances_written w k text t :
  w_files w !! candidate k = None ->
  advances w (set_trace (w_trace w ++ t)
                (set_files (<[candidate k := text]> (w_files w)) w)).
Proof.
  intros Hfree.
  eapply advances_trans; [apply (advances_new_file w k text Hfree)|].
  apply (extends_advances (fun _ => True)).
  exists t. split; [|reflexivity].
  apply Forall_forall. intros ? _. exact I.
Qed.

Lemma steps_makePlan fuel pln opts nodes : steps (makePlan fuel pln opts nodes).
Proof.
  intros w r w' Hrun.
  assert (Hcases : template_Parse = None \/ exists e, template_Parse = Some e).
  { destruct template_Parse; eauto. }
  destruct Hcases as [Hparse|[e Hparse]].
  2:{ unfold makePlan in Hrun. rewrite Hparse in Hrun.
      injection Hrun as <- <-. apply advances_refl. }
  destruct (makeUniqueFile fuel 0 w) as [r0 w1] eqn:Hfile.
  pose proof Hfile as Hout.
  apply makeUniqueFile_outcome in Hout as [[-> Hr0]|(k & -> & Hfree & ->)].
  - unfold makePlan in Hrun. rewrite Hparse in Hrun.
    unfold bind at 1 in Hrun. rewrite Hfile in Hrun.
    destruct Hr0 as [->|[e ->]]; injection Hrun as <- <-; apply advances_refl.
  - destruct (template_Execute pln) as [text [e|]] eqn:Hexec.
    + rewrite (makePlan_render_error_run _ pln opts nodes _ _ _ _ _
                 Hparse Hfile Hexec) in Hrun.
      injection Hrun as <- <-. apply advances_new_file, Hfree.
    + rewrite (makePlan_run _ pln opts nodes _ _ _ _ Hparse Hfile Hexec) in Hrun.
      cbv zeta in Hrun. cbn [Name] in Hrun.
      destruct (BootstrapNode opts).
      * destruct (Boostrap nodes) as [|boot rest].
        -- injection Hrun as <- <-. apply advances_new_file, Hfree.
        -- injection Hrun as <- <-. apply advances_written, Hfree.
      * injection Hrun as <- <-. apply advances_written, Hfree.
Qed.

End PlanRuns.

(** ** Runs of [makeInfra] and [deleteInfra] *)

Section InfraRuns.

Context {provisioner : Provisioner}.
Variable WaitForSSH : ProvisionedNodes -> string -> option error.
Variable scpFile : string -> string -> string -> string -> string -> string * option error.
Variable KET_INSTALL_DIR : string.
Variable filepath_Join : string -> string -> string.
Variable filepath_Base : string -> string.
Variable filepath_Abs : string -> string.
Variable template_Parse : option error.
Variable template_Execute : Plan -> string * option error.
Variable bufio_overflow : string -> string.
Variable rand_Intn : nat -> Z -> Z.
Variable garbler_NewPassword : PasswordStrengthRequirements -> nat -> string * option error.

Local Abbreviation Intn := (Intn rand_Intn).
Local Abbreviation NewPassword := (NewPassword garbler_NewPassword).
Local Abbreviation generate_loop := (generate_loop rand_Intn garbler_NewPassword).
Local Abbreviation generateAlphaNumericPassword :=
  (generateAlphaNumericPassword rand_Intn garbler_NewPassword).
Local Abbreviation validateKeyFile := (validateKeyFile filepath_Join).
Local Abbreviation assemblePlan := (assemblePlan rand_Intn garbler_NewPassword).
Local Abbreviation makePlan :=
  (makePlan scpFile KET_INSTALL_DIR filepath_Abs template_Parse template_Execute bufio_overflow).
Local Abbreviation makeInfra :=
  (makeInfra WaitForSSH scpFile KET_INSTALL_DIR filepath_Join filepath_Base
     filepath_Abs template_Parse template_Execute bufio_overflow rand_Intn garbler_NewPassword).
Local Abbreviation FileInfo_Name := (FileInfo_Name filepath_Base).
Local Abbreviation waitForSSH := (waitForSSH WaitForSSH).
Local Abbreviation default_key_path := (default_key_path filepath_Join).
Local Abbreviation key_path := (key_path filepath_Join).
Local Abbreviation key_present := (key_present filepath_Join).
Local Abbreviation run_opts := (run_opts filepath_Join filepath_Base).
Local Abbreviation staging_events :=
  (staging_events scpFile KET_INSTALL_DIR filepath_Abs).

Lemma steps_Intn bound : steps (Intn bound).
Proof.
  intros w r w' [= <- <-].
  apply (advances_counters w (S (w_rand w)) (w_garbler w)); lia.
Qed.

Lemma steps_NewPassword reqs : steps (NewPassword reqs).
Proof.
  intros w r w' [= <- <-].
  unfold advances. cbn. repeat split; auto.
  exists []. rewrite app_nil_r. reflexivity.
Qed.

Lemma steps_generate_loop fuel : forall attempts, steps (generate_loop fuel attempts).
Proof.
  induction fuel as [|fuel IH]; intros attempts.
  - intros w r w' [= <- <-]. apply advances_refl.
  - cbn [generate_loop].
    apply steps_bind; [apply steps_Intn|intros uppercase].
    apply steps_bind; [apply steps_Intn|intros digits].
    apply steps_bind; [apply steps_NewPassword|intros [pass err]].
    destruct err; [apply steps_ret|].
    destruct (MatchString pass); [apply steps_ret|].
    destruct (attempts =? 50)%Z; [apply steps_ret|apply IH].
Qed.

Lemma steps_index {A} (l : list A) i : steps (index l i).
Proof. apply (steps_emits (fun _ => True)), emits_index. Qed.

Lemma steps_assemblePlan opts nodes : steps (assemblePlan opts nodes).
Proof.
  unfold assemblePlan.
  apply steps_bind; [apply steps_generate_loop|intros password].
  repeat (apply steps_bind; [apply steps_index|intros ?]).
  apply steps_ret.
Qed.

Lemma steps_Println operands : steps (Println operands).
Proof. apply (steps_emits (fun _ => True)), emits_Println. intros; exact I. Qed.

(** From the state in which the token has been read, a run of [makeInfra]
    only moves the world forward. *)
Lemma makeInfra_from_token fuel opts w o w1 :
  readToken opts w = (Ok o, w1) ->
  advances w1 (snd (makeInfra fuel opts w)).
Proof.
  intros Htoken. unfold makeInfra.
  rewrite (bind_Ok _ _ _ _ _ Htoken).
  apply steps_snd.
  apply steps_bind.
  { apply (steps_emits (fun _ => True)), emits_validateKeyFile. intros; exact I. }
  intros [[sshPrivate sshPublic] errkey].
  apply steps_bind; [apply (steps_emits (fun _ => True)), emits_os_Stat|intros [s staterr]].
  apply steps_bind; [apply (steps_emits (fun _ => True)), emits_FileInfo_Name|intros name].
  apply steps_bind; [apply steps_Println|intros _].
  destruct errkey; [apply steps_ret|].
  apply steps_bind; [apply steps_Println|intros _].
  apply steps_bind.
  { apply (steps_emits (fun _ => True)), emits_provision. intros; exact I. }
  intros [nodes err].
  destruct err; [apply steps_ret|].
  apply steps_bind; [apply steps_Println|intros _].
  apply steps_bind.
  { apply (steps_emits (fun _ => True)), emits_waitForSSH. intros; exact I. }
  intros err.
  destruct err; [apply steps_ret|].
  destruct (NoPlan _).
  - apply steps_bind; [apply steps_Println|intros _].
    apply steps_bind; [|intros _; apply steps_ret].
    apply (steps_emits (fun _ => True)), emits_printNodes. intros; exact I.
  - apply steps_bind; [apply steps_assemblePlan|intros pln].
    apply steps_makePlan.
Qed.

(** X16.  In every run of [makeInfra], however it ends (a result, an error, a
    panic), the environment is left as it was, every file that was there
    keeps its contents, and a file that is new bears one of the names
    [makeUniqueFile] tries. *)
Theorem makeInfra_keeps_existing_files (fuel : nat) (opts : DOOpts) (w : World) :
  w_env (snd (makeInfra fuel opts w)) = w_env w /\
  (forall path text,
      w_files w !! path = Some text ->
      w_files (snd (makeInfra fuel opts w)) !! path = Some text) /\
  (forall path,
      is_Some (w_files (snd (makeInfra fuel opts w)) !! path) ->
      is_Some (w_files w !! path) \/ exists count : Z, path = candidate count).
Proof.
  destruct (readToken_run opts w) as (w1 & Htoken & Hext).
  pose proof (advances_trans _ _ _ (extends_advances _ _ _ Hext)
                (makeInfra_from_token fuel opts w _ _ Htoken)) as Hadv.
  destruct Hadv as (He & _ & _ & _ & _ & Hkeep & Hnew & _).
  auto.
Qed.

Lemma readToken_first_print opts w :
  exists o w1 t,
    readToken opts w = (Ok o, w1) /\
    w_trace w1
    = w_trace w
      ++ EvPrint ["DO API token env"; default "" (w_env w !! "DO_API_TOKEN")] :: t.
Proof.
  unfold readToken, bind, os_Getenv, Println, emit, modify, get, ret. cbn.
  destruct (decide (default "" (w_env w !! "DO_API_TOKEN") = "")).
  - eexists _, _, [_]. split; [reflexivity|]. cbn.
    rewrite <- app_assoc. reflexivity.
  - eexists _, _, []. split; reflexivity.
Qed.

(** X17.  Every run of [makeInfra] starts by printing the value of
    [DO_API_TOKEN] on standard output. *)
Theorem makeInfra_prints_token_first (fuel : nat) (opts : DOOpts) (w : World) :
  exists t : list Event,
    w_trace (snd (makeInfra fuel opts w))
    = w_trace w
      ++ EvPrint ["DO API token env"; default "" (w_env w !! "DO_API_TOKEN")] :: t.
Proof.
  destruct (readToken_first_print opts w) as (o & w1 & t1 & Htoken & Htrace).
  destruct (makeInfra_from_token fuel opts w _ _ Htoken)
    as (_ & _ & _ & _ & [t2 Ht2] & _).
  exists (t1 ++ t2). rewrite Ht2, Htrace, <- app_assoc. reflexivity.
Qed.

(** The run up to the answer of the provisioner, and to the answer of
    [WaitForSSH], when the key file is there. *)
Lemma makeInfra_provisioned fuel opts w :
  key_present w ->
  exists w1,
    extends is_print w w1 /\
    let provisioned :=
      set_trace (w_trace w1 ++ [EvProvision (run_opts opts w) (run_counts opts)]) w1 in
    match ProvisionNodes (run_opts opts w) (run_counts opts) with
    | (_, Some e) => makeInfra fuel opts w = (Ok (Some e), provisioned)
    | (nodes, None) =>
        match WaitForSSH nodes (key_path w) with
        | Some e =>
            makeInfra fuel opts w
            = (Ok (Some e),
               set_trace (w_trace provisioned
                          ++ [EvPrint ["Waiting for SSH"];
                              EvWaitForSSH nodes (key_path w)]) provisioned)
        | None => True
        end
    end.
Proof.
  intros [Hne Hkey].
  unfold makeInfra.
  destruct (readToken_run opts w) as (wa & Ha & Hext_a).
  rewrite (bind_Ok _ _ _ _ _ Ha).
  destruct (validateKeyFile_run filepath_Join (set_Token (token_of w) opts) wa)
    as (r & wb & Hb & Hext_b).
  pose proof (validateKeyFile_present_result filepath_Join
                (set_Token (token_of w) opts) wa) as Hres.
  rewrite (extends_key_path _ _ _ _ Hext_a) in Hres.
  destruct (extends_frame _ _ _ Hext_a) as (_ & _ & _ & Hfa & _).
  rewrite Hfa in Hres. specialize (Hres Hkey Hne).
  rewrite Hb in Hres. simpl in Hres. subst r.
  rewrite (bind_Ok _ _ _ _ _ Hb). cbv beta iota.
  destruct (extends_frame _ _ _ Hext_b) as (_ & _ & _ & Hfb & _).
  assert (Hstat : os_Stat (key_path w) wb
                  = (Ok (Some (mkFileInfo (key_path w)), None), wb)).
  { apply os_Stat_taken; [|exact Hne]. rewrite Hfb, Hfa. exact Hkey. }
  rewrite (bind_Ok _ _ _ _ _ Hstat). cbv beta iota.
  rewrite (bind_Ok _ _ _ _ _ (FileInfo_Name_run filepath_Base _ _)).
  fold (run_opts opts w).
  rewrite (bind_Ok _ _ _ _ _ (Println_run _ _)).
  rewrite (bind_Ok _ _ _ _ _ (Println_run _ _)).
  rewrite (bind_Ok _ _ _ _ _ (provision_run _ _ _)).
  change (ProvisionNodes _ _)
    with (ProvisionNodes (run_opts opts w) (run_counts opts)).
  set (wc := set_trace (w_trace wb ++ [EvPrint ["SSH file name"; filepath_Base (key_path w)]]) wb).
  exists (set_trace (w_trace wc ++ [EvPrint ["Provisioning"]]) wc). split.
  { eapply extends_trans; [exact Hext_a|].
    eapply extends_trans; [exact Hext_b|].
    repeat (apply extends_snoc; [|exact I]). apply extends_refl. }
  cbv zeta.
  destruct (ProvisionNodes (run_opts opts w) (run_counts opts)) as [nodes [e|]];
    cbv beta iota; [reflexivity|].
  rewrite (bind_Ok _ _ _ _ _ (Println_run _ _)).
  rewrite (bind_Ok _ _ _ _ _ (waitForSSH_run WaitForSSH _ _ _)).
  change (WaitForSSH nodes _) with (WaitForSSH nodes (key_path w)).
  destruct (WaitForSSH nodes (key_path w)) as [e|]; [|exact I].
  cbv beta iota. unfold ret, set_trace. cbn. rewrite <- !app_assoc. reflexivity.
Qed.

(** X14.  An error of the provisioner is returned as it is.  The run has
    then printed and, as its last step, called the provisioner: once, with
    the options and the node counts of the run.  It has not waited for the
    nodes, built no plan and copied nothing, and nothing but the trace has
    changed. *)
Theorem makeInfra_provision_error
    (fuel : nat) (opts : DOOpts) (w : World) (nodes : ProvisionedNodes) (e : error) :
  key_present w ->
  ProvisionNodes (run_opts opts w) (run_counts opts) = (nodes, Some e) ->
  exists w1,
    extends is_print w w1 /\
    makeInfra fuel opts w
    = (Ok (Some e),
       set_trace (w_trace w1 ++ [EvProvision (run_opts opts w) (run_counts opts)]) w1).
Proof.
  intros Hkey Hprov.
  destruct (makeInfra_provisioned fuel opts w Hkey) as (w1 & Hext & Hrun).
  cbv zeta in Hrun. rewrite Hprov in Hrun.
  exists w1. split; [exact Hext|exact Hrun].
Qed.

(** X15.  An error of [WaitForSSH] is returned as it is: no password has been
    generated, no plan file written and nothing copied. *)
Theorem makeInfra_wait_error
    (fuel : nat) (opts : DOOpts) (w : World) (nodes : ProvisionedNodes) (e : error) :
  key_present w ->
  ProvisionNodes (run_opts opts w) (run_counts opts) = (nodes, None) ->
  WaitForSSH nodes (key_path w) = Some e ->
  exists w',
    makeInfra fuel opts w = (Ok (Some e), w') /\
    extends is_setup w w' /\
    w_files w' = w_files w /\ w_garbler w' = w_garbler w.
Proof.
  intros Hkey Hprov Hwait.
  destruct (makeInfra_provisioned fuel opts w Hkey) as (w1 & Hext & Hrun).
  cbv zeta in Hrun. rewrite Hprov, Hwait in Hrun.
  eexists. split; [exact Hrun|].
  assert (Hsetup : extends is_setup w
            (set_trace
               (w_trace (set_trace (w_trace w1 ++ [EvProvision (run_opts opts w) (run_counts opts)]) w1)
                ++ [EvPrint ["Waiting for SSH"]; EvWaitForSSH nodes (key_path w)])
               (set_trace (w_trace w1 ++ [EvProvision (run_opts opts w) (run_counts opts)]) w1))).
  { eapply extends_trans.
    - apply (extends_snoc is_setup (EvProvision (run_opts opts w) (run_counts opts)));
        [|exact I].
      eapply extends_weaken; [apply is_print_setup|exact Hext].
    - exists [EvPrint ["Waiting for SSH"]; EvWaitForSSH nodes (key_path w)].
      split; [|reflexivity]. repeat constructor. }
  split; [exact Hsetup|].
  apply extends_frame in Hsetup as (_ & _ & _ & Hf & _ & _ & Hg). auto.
Qed.

(** X18.  A whole successful run with a plan: the result is [nil], and the
    directory is the one before the run with one more file, under the
    first free plan name, holding the text rendered from the plan of the
    topology: first worker as ingress, first master as endpoint and login
    user, the key under [/ket/ssh/]. *)
Theorem makeInfra_writes_plan
    (fuel : nat) (opts : DOOpts) (w : World) (nodes : ProvisionedNodes)
    (worker master : Node) (workers masters : list Node) :
  NoPlan opts = false ->
  key_present w ->
  ProvisionNodes (run_opts opts w) (run_counts opts) = (nodes, None) ->
  WaitForSSH nodes (key_path w) = None ->
  Worker nodes = worker :: workers ->
  Master nodes = master :: masters ->
  (BootstrapNode opts = true -> Boostrap nodes ≠ []) ->
  template_Parse = None ->
  (forall pln, snd (template_Execute pln) = None) ->
  w_denied w = ∅ ->
  (Z.of_nat (size (w_files w)) < 2 ^ 63)%Z ->
  size (w_files w) < fuel ->
  exists (n : nat) (password : string),
    first_free w n /\
    fst (makeInfra fuel opts w) = Ok None /\
    w_files (snd (makeInfra fuel opts w))
    = <[plan_name n :=
          fst (template_Execute
                 {| AdminPassword := password;
                    PlanEtcd := Etcd nodes;
                    PlanMaster := Master nodes;
                    PlanWorker := Worker nodes;
                    Ingress := [worker];
                    PlanStorage := if Storage opts then Worker nodes else [];
                    MasterNodeFQDN := PublicIPv4 master;
                    MasterNodeShortName := PublicIPv4 master;
                    SSHKeyFile := "/ket/ssh/" +:+ filepath_Base (key_path w);
                    PlanSSHUser := NodeSSHUser master |})]> (w_files w).
Proof.
  intros Hplan Hkey Hprov Hwait Hworker Hmaster Hboot Hparse Hexec Hdenied Hsize Hfuel.
  destruct (makeInfra_ready WaitForSSH scpFile KET_INSTALL_DIR filepath_Join
              filepath_Base filepath_Abs template_Parse template_Execute
              bufio_overflow rand_Intn garbler_NewPassword fuel opts w nodes
              Hkey Hprov Hwait)
    as (w1 & Hext & ->).
  rewrite Hplan.
  destruct (assemblePlan_ok rand_Intn garbler_NewPassword (run_opts opts w) nodes w1
              _ _ _ _ Hworker Hmaster) as (password & k & Hasm).
  rewrite (bind_Ok _ _ _ _ _ Hasm).
  destruct (extends_frame _ _ _ Hext) as (_ & _ & _ & Hfiles & Hden & _).
  destruct (first_free_exists w) as (n & Hn & Hfree & Htaken).
  exists n, password. split; [split; assumption|].
  set (w2 := after_attempts w1 k).
  assert (Hfiles2 : w_files w2 = w_files w) by exact Hfiles.
  destruct (makeUniqueFile_probe n 0 w2) as [_ Hrun].
  { simpl. lia. }
  { intros i Hi. rewrite Hfiles2. apply Htaken. lia. }
  { rewrite Hfiles2. exact Hfree. }
  specialize (Hrun fuel ltac:(lia)). simpl in Hrun.
  rewrite os_Create_allowed in Hrun.
  2:{ change (w_denied w2) with (w_denied w1). rewrite Hden, Hdenied.
      apply not_elem_of_empty. }
  set (pln := {| AdminPassword := password;
                 PlanEtcd := Etcd nodes;
                 PlanMaster := Master nodes;
                 PlanWorker := Worker nodes;
                 Ingress := [worker];
                 PlanStorage := if Storage opts then Worker nodes else [];
                 MasterNodeFQDN := PublicIPv4 master;
                 MasterNodeShortName := PublicIPv4 master;
                 SSHKeyFile := "/ket/ssh/" +:+ filepath_Base (key_path w);
                 PlanSSHUser := NodeSSHUser master |}).
  change (fst (makePlan fuel pln (run_opts opts w) nodes w2) = Ok None /\
          w_files (snd (makePlan fuel pln (run_opts opts w) nodes w2))
          = <[plan_name n := fst (template_Execute pln)]> (w_files w)).
  destruct (template_Execute pln) as [text err] eqn:Hrender.
  pose proof (Hexec pln) as Herr. rewrite Hrender in Herr. simpl in Herr. subst err.
  rewrite (makePlan_run scpFile KET_INSTALL_DIR filepath_Abs template_Parse
             template_Execute bufio_overflow fuel pln (run_opts opts w) nodes w2 _ _ text
             Hparse Hrun Hrender).
  cbv zeta. change (BootstrapNode (run_opts opts w)) with (BootstrapNode opts).
  destruct (BootstrapNode opts) eqn:Hb.
  - destruct (Boostrap nodes) as [|boot rest] eqn:Hbn.
    + exfalso. apply Hboot; reflexivity.
    + split; [reflexivity|]. subst w2. cbn. rewrite Hfiles. reflexivity.
  - split; [reflexivity|]. subst w2. cbn. rewrite Hfiles. reflexivity.
Qed.

End InfraRuns.

(** ** The key file and the teardown *)

Section KeyFile.

Context {provisioner : Provisioner}.
Variable filepath_Join : string -> string -> string.

Local Abbreviation validateKeyFile := (validateKeyFile filepath_Join).
Local Abbreviation default_key_path := (default_key_path filepath_Join).
Local Abbreviation key_path := (key_path filepath_Join).

(** X1.  A key path taken from [DO_SECRET_ACCESS_KEY] is returned as it is, with
    the public key path next to it: [validateKeyFile] does not look
    whether the file is there, prints nothing and returns no error. *)
Theorem validateKeyFile_trusts_environment (opts : DOOpts) (w : World) (path : string) :
  default "" (w_env w !! "DO_SECRET_ACCESS_KEY") = path ->
  path ≠ "" ->
  validateKeyFile opts w = (Ok (path, path +:+ ".pub", None), w).
Proof.
  intros Henv Hne.
  rewrite (validateKeyFile_env_result filepath_Join opts w) by (rewrite Henv; exact Hne).
  unfold key_path. rewrite Henv.
  destruct (decide (path = "")) as [?|_]; [done|]. reflexivity.
Qed.


(** X4.  [deleteInfra] hands the options, with the token of the run, to
    [TerminateNodes] and returns what it returns; it needs no key file and
    touches no file.  The token is the one of the environment when there
    is one, and then nothing is printed; else the prompt is written, once
    and with no line end, and the token is the first line of standard
    input without its line end, whatever follows that line. *)
Theorem deleteInfra_result (opts : DOOpts) (w : World) :
  deleteInfra opts w
  = (Ok (TerminateNodes (set_Token (token_of w) opts)),
     if decide (default "" (w_env w !! "DO_API_TOKEN") = "")
     then set_trace (w_trace w ++ [EvPrompt "Enter Digital Ocean API Token: "]) w
     else w) /\
  (forall token : string,
      w_env w !! "DO_API_TOKEN" = Some token -> token ≠ "" -> token_of w = token) /\
  (forall t rest : string,
      default "" (w_env w !! "DO_API_TOKEN") = "" ->
      no_line_end t = true ->
      w_stdin w = t +:+ String LF rest \/
      w_stdin w = t +:+ String CR (String LF rest) ->
      token_of w = t).
Proof.
  split; [|split].
  - unfold deleteInfra, token_of, bind, os_Getenv, Print, emit, modify, get, ret.
    cbn. destruct (decide (default "" (w_env w !! "DO_API_TOKEN") = "")); reflexivity.
  - intros token Henv Hne. unfold token_of. rewrite Henv. cbn.
    destruct (decide (token = "")) as [?|_]; [done|reflexivity].
  - intros t rest. apply token_of_first_line.
Qed.

End KeyFile.

(** ** The further theorems on the examples *)

Lemma makePlan_create_denied_witness :
  makePlan demo_scp_refused "/ket/" demo_Abs None demo_Execute demo_overflow 2 demo_plan
    (demo_opts 1 false false) (demo_topology 1) denied_world
  = (Ok (Some (ErrPermission (plan_name 1))), denied_world).
Proof.
  apply (makePlan_create_denied demo_scp_refused "/ket/" demo_Abs None demo_Execute demo_overflow
           2 demo_plan (demo_opts 1 false false) (demo_topology 1) denied_world 1).
  - reflexivity.
  - split; [vm_compute; reflexivity|].
    intros k Hk. assert (k = 0) as -> by lia. vm_compute. eexists. reflexivity.
  - change (w_denied denied_world) with ({["kismatic-cluster-1.yaml"]} : gset string).
    apply elem_of_singleton_2. vm_compute. reflexivity.
  - lia.
  - lia.
Defined.

Lemma makePlan_render_error_leaves_file_witness :
  w_files keyed_world !! Name (mkFile "kismatic-cluster.yaml") = None /\
  makePlan demo_scp_refused "/ket/" demo_Abs None demo_Execute_fails demo_overflow
    1 demo_plan (demo_opts 1 false false) (demo_topology 1) keyed_world
  = (Ok (Some (ErrMsg "template: planAWSOverlay: can't evaluate field")),
     set_files (<[Name (mkFile "kismatic-cluster.yaml")
                  := bufio_passed demo_overflow "admin_password: "]>
                  (w_files keyed_world)) keyed_world) /\
  (String.length "admin_password: " <= 4096 ->
   makePlan demo_scp_refused "/ket/" demo_Abs None demo_Execute_fails demo_overflow
     1 demo_plan (demo_opts 1 false false) (demo_topology 1) keyed_world
   = (Ok (Some (ErrMsg "template: planAWSOverlay: can't evaluate field")),
      set_files (<[Name (mkFile "kismatic-cluster.yaml") := ""]>
                   (w_files keyed_world)) keyed_world)).
Proof.
  apply (makePlan_render_error_leaves_file demo_scp_refused "/ket/" demo_Abs None
           demo_Execute_fails demo_overflow 1 demo_plan (demo_opts 1 false false)
           (demo_topology 1) keyed_world
           (set_files (<["kismatic-cluster.yaml" := ""]> (w_files keyed_world)) keyed_world)
           (mkFile "kismatic-cluster.yaml") "admin_password: "
           (ErrMsg "template: planAWSOverlay: can't evaluate field")).
  - reflexivity.
  - vm_compute. reflexivity.
  - reflexivity.
Defined.

Lemma makePlan_without_bootstrap_witness :
  makePlan demo_scp_refused "/ket/" demo_Abs None demo_Execute demo_overflow 1 demo_plan
    demo_opts_no_bootstrap (demo_topology 1) keyed_world
  = (Ok None,
     set_trace (w_trace keyed_world ++ install_hint (mkFile "kismatic-cluster.yaml"))
       (set_files (<[Name (mkFile "kismatic-cluster.yaml")
                     := "admin_password: Kuxavopi7Rezumat4"]>
                     (w_files keyed_world)) keyed_world)).
Proof.
  apply (makePlan_without_bootstrap demo_scp_refused "/ket/" demo_Abs None
           demo_Execute demo_overflow 1 demo_plan demo_opts_no_bootstrap (demo_topology 1)
           keyed_world
           (set_files (<["kismatic-cluster.yaml" := ""]> (w_files keyed_world)) keyed_world)
           (mkFile "kismatic-cluster.yaml") "admin_password: Kuxavopi7Rezumat4").
  - reflexivity.
  - vm_compute. reflexivity.
  - reflexivity.
  - reflexivity.
Defined.

Lemma makePlan_staging_witness :
  makePlan demo_scp_ok "/ket/" demo_Abs None demo_Execute demo_overflow 1 demo_plan
    (demo_opts 1 false false) (demo_topology 1) keyed_world
  = (Ok None,
     set_trace (w_trace keyed_world
                ++ staging_events demo_scp_ok "/ket/" demo_Abs
                     (mkFile "kismatic-cluster.yaml") (demo_opts 1 false false)
                     (demo_node "bootstrap" 0) keyed_world
                ++ install_hint (mkFile "kismatic-cluster.yaml"))
       (set_files (<[Name (mkFile "kismatic-cluster.yaml")
                     := "admin_password: Kuxavopi7Rezumat4"]>
                     (w_files keyed_world)) keyed_world)) /\
  staging_events demo_scp_ok "/ket/" demo_Abs (mkFile "kismatic-cluster.yaml")
    (demo_opts 1 false false) (demo_node "bootstrap" 0) keyed_world !! 1
  = Some (EvScp (demo_Abs (Name (mkFile "kismatic-cluster.yaml")))
            (staging_root "/ket/" keyed_world +:+ "kismatic - cluster.yaml")
            (SSHUser (demo_opts 1 false false))
            (PublicIPv4 (demo_node "bootstrap" 0))
            (SshPrivate (demo_opts 1 false false))) /\
  (forall out e,
      demo_scp_ok (demo_Abs (Name (mkFile "kismatic-cluster.yaml")))
        (staging_root "/ket/" keyed_world +:+ "kismatic - cluster.yaml")
        (SSHUser (demo_opts 1 false false))
        (PublicIPv4 (demo_node "bootstrap" 0))
        (SshPrivate (demo_opts 1 false false)) = (out, Some e) ->
      length (staging_events demo_scp_ok "/ket/" demo_Abs
                (mkFile "kismatic-cluster.yaml") (demo_opts 1 false false)
                (demo_node "bootstrap" 0) keyed_world) = 2).
Proof.
  apply (makePlan_staging demo_scp_ok "/ket/" demo_Abs None demo_Execute demo_overflow 1
           demo_plan (demo_opts 1 false false) (demo_topology 1) keyed_world
           (set_files (<["kismatic-cluster.yaml" := ""]> (w_files keyed_world)) keyed_world)
           (mkFile "kismatic-cluster.yaml") "admin_password: Kuxavopi7Rezumat4"
           (demo_node "bootstrap" 0) []).
  - reflexivity.
  - vm_compute. reflexivity.
  - reflexivity.
  - reflexivity.
  - vm_compute. reflexivity.
Defined.

Lemma makePlan_bootstrap_missing_panics_witness :
  makePlan demo_scp_ok "/ket/" demo_Abs None demo_Execute demo_overflow 1 demo_plan
    (demo_opts 1 false false) (mkProvisionedNodes [] [] [] []) keyed_world
  = (Panic (IndexOutOfRange 0 0),
     set_files (<[Name (mkFile "kismatic-cluster.yaml")
                   := "admin_password: Kuxavopi7Rezumat4"]>
                   (w_files keyed_world)) keyed_world).
Proof.
  apply (makePlan_bootstrap_missing_panics demo_scp_ok "/ket/" demo_Abs None
           demo_Execute demo_overflow 1 demo_plan (demo_opts 1 false false)
           (mkProvisionedNodes [] [] [] []) keyed_world
           (set_files (<["kismatic-cluster.yaml" := ""]> (w_files keyed_world)) keyed_world)
           (mkFile "kismatic-cluster.yaml") "admin_password: Kuxavopi7Rezumat4").
  - reflexivity.
  - vm_compute. reflexivity.
  - reflexivity.
  - reflexivity.
  - reflexivity.
Defined.

Lemma makeInfra_provision_error_witness :
  exists w1,
    extends is_print keyed_world w1 /\
    @makeInfra failing_provisioner demo_WaitForSSH demo_scp_ok "/ket/" demo_Join
      demo_Base demo_Abs None demo_Execute demo_overflow rand_zero garbler_good
      1 (demo_opts 1 false false) keyed_world
    = (Ok (Some (ErrMsg "droplet limit exceeded")),
       set_trace
         (w_trace w1
          ++ [EvProvision
                (run_opts demo_Join demo_Base (demo_opts 1 false false) keyed_world)
                (run_counts (demo_opts 1 false false))]) w1).
Proof.
  apply (@makeInfra_provision_error failing_provisioner demo_WaitForSSH demo_scp_ok
           "/ket/" demo_Join demo_Base demo_Abs None demo_Execute demo_overflow rand_zero
           garbler_good 1 (demo_opts 1 false false) keyed_world
           (mkProvisionedNodes [] [] [] [])).
  - split; [vm_compute; discriminate|vm_compute; eexists; reflexivity].
  - reflexivity.
Defined.

Lemma makeInfra_wait_error_witness :
  exists w',
    @makeInfra demo_provisioner demo_WaitForSSH_timeout demo_scp_ok "/ket/"
      demo_Join demo_Base demo_Abs None demo_Execute demo_overflow rand_zero garbler_good
      1 (demo_opts 1 false false) keyed_world
    = (Ok (Some (ErrMsg "Unable to SSH into nodes in a timely fashion")), w') /\
    extends is_setup keyed_world w' /\
    w_files w' = w_files keyed_world /\ w_garbler w' = w_garbler keyed_world.
Proof.
  apply (@makeInfra_wait_error demo_provisioner demo_WaitForSSH_timeout demo_scp_ok
           "/ket/" demo_Join demo_Base demo_Abs None demo_Execute demo_overflow rand_zero
           garbler_good 1 (demo_opts 1 false false) keyed_world (demo_topology 1)).
  - split; [vm_compute; discriminate|vm_compute; eexists; reflexivity].
  - vm_compute. reflexivity.
  - reflexivity.
Defined.

Lemma makeInfra_writes_plan_witness :
  exists (n : nat) (password : string),
    first_free keyed_world n /\
    fst (demo_makeInfra demo_scp_ok 2 (demo_opts 2 false true) keyed_world) = Ok None /\
    w_files (snd (demo_makeInfra demo_scp_ok 2 (demo_opts 2 false true) keyed_world))
    = <[plan_name n :=
          fst (demo_Execute
                 {| AdminPassword := password;
                    PlanEtcd := Etcd (demo_topology 2);
                    PlanMaster := Master (demo_topology 2);
                    PlanWorker := Worker (demo_topology 2);
                    Ingress := [demo_node "worker" 0];
                    PlanStorage :=
                      if Storage (demo_opts 2 false true)
                      then Worker (demo_topology 2) else [];
                    MasterNodeFQDN := PublicIPv4 (demo_node "master" 0);
                    MasterNodeShortName := PublicIPv4 (demo_node "master" 0);
                    SSHKeyFile := "/ket/ssh/" +:+ demo_Base (key_path demo_Join keyed_world);
                    PlanSSHUser := NodeSSHUser (demo_node "master" 0) |})]>
        (w_files keyed_world).
Proof.
  apply (@makeInfra_writes_plan demo_provisioner demo_WaitForSSH demo_scp_ok
           "/ket/" demo_Join demo_Base demo_Abs None demo_Execute demo_overflow rand_zero
           garbler_good 2 (demo_opts 2 false true) keyed_world (demo_topology 2)
           (demo_node "worker" 0) (demo_node "master" 0)
           [demo_node "worker" 1] []).
  - reflexivity.
  - split; [vm_compute; discriminate|vm_compute; eexists; reflexivity].
  - vm_compute. reflexivity.
  - reflexivity.
  - vm_compute. reflexivity.
  - vm_compute. reflexivity.
  - intros _. vm_compute. discriminate.
  - reflexivity.
  - intros pln. reflexivity.
  - reflexivity.
  - vm_compute. reflexivity.
  - vm_compute. lia.
Defined.

Lemma validateKeyFile_trusts_environment_witness :
  validateKeyFile demo_Join (demo_opts 1 false false) stale_key_world
  = (Ok ("/keys/old.pem", "/keys/old.pem" +:+ ".pub", None), stale_key_world).
Proof.
  apply (validateKeyFile_trusts_environment demo_Join (demo_opts 1 false false)
           stale_key_world "/keys/old.pem").
  - vm_compute. reflexivity.
  - discriminate.
Defined.


Lemma deleteInfra_result_witness :
  @deleteInfra token_provisioner (demo_opts 1 false false) typing_world
  = (Ok None, set_trace [EvPrompt "Enter Digital Ocean API Token: "] typing_world).
Proof.
  destruct (@deleteInfra_result token_provisioner (demo_opts 1 false false)
              typing_world) as (Hrun & _ & Hline).
  rewrite Hrun.
  rewrite (Hline "dop_v1_token" ("yes" +:+ String LF ""));
    [|reflexivity|vm_compute; reflexivity|right; reflexivity].
  vm_compute. reflexivity.
Defined.

(** The stale key of the environment passes [validateKeyFile] and stops
    [makeInfra] on the nil [FileInfo]. *)
Example makeInfra_stale_key :
  fst (demo_makeInfra demo_scp_ok 1 (demo_opts 1 false false) stale_key_world)
  = Panic NilDereference.
Proof. vm_compute. reflexivity. Qed.
